(** * topology_lib_ntpd: the NTP daemon communication library

    A shallow embedding of [lib/topology_lib_ntpd/library.py].  Every
    function of the library formats one shell command and hands it to the
    engine node, a callable [enode(cmd, shell='bash')] which returns the
    captured output.  The embedding keeps three things the source has:

    - the Python primitives the functions use: [str.format] on a template
      with named fields, [str] of an [int], truthiness of a [str], and the
      substring test [x in s];
    - [assert], which raises [AssertionError] and leaves the rest of the
      function unexecuted;
    - the engine node, as a transition on the state of the remote node,
      with the list of calls made so far kept on the side. *)

From Stdlib Require Import Bool Ascii String List ZArith Lia.
From Stdlib Require Import DecimalString.
Import ListNotations.

Local Open Scope string_scope.
Local Open Scope Z_scope.

Set Implicit Arguments.

(** ** Python primitives *)

(** Exceptions that the embedded fragment of Python can raise.  [assert]
    raises [AssertionError]; [str.format] raises [KeyError] on a named
    field with no argument, [IndexError] on an unnamed field with no
    positional argument and [ValueError] on an unbalanced brace. *)
Inductive exn : Type :=
| AssertionError
| KeyError (field : string)
| IndexError
| ValueError.

Inductive result (A : Type) : Type :=
| Return (a : A)
| Raise (e : exn).

Arguments Return {A} a.
Arguments Raise {A} e.

(** The values that reach [str.format] in this library. *)
Inductive pyval : Type :=
| PyStr (s : string)
| PyInt (z : Z)
| PyNone.

(** [str(z)] for an [int]: decimal digits, a leading minus sign for a
    negative number. *)
Definition str_of_int (z : Z) : string :=
  NilZero.string_of_int (Z.to_int z).

(** [format(v, '')], which is what an empty format spec does. *)
Definition py_str (v : pyval) : string :=
  match v with
  | PyStr s => s
  | PyInt z => str_of_int z
  | PyNone => "None"
  end.

(** Truthiness of a [str]: only the empty string is false. *)
Definition truthy (s : string) : bool :=
  match s with
  | EmptyString => false
  | String _ _ => true
  end.

(** Keyword arguments of a call to [str.format]. *)
Definition kwargs : Type := list (string * pyval).

Fixpoint kwlookup (name : string) (kw : kwargs) : option pyval :=
  match kw with
  | [] => None
  | (k, v) :: rest => if String.eqb k name then Some v else kwlookup name rest
  end.

(** The scanner of [str.format] is in one of four places: in literal
    text, just after an opening brace, inside a replacement field whose
    name read so far is [name], or just after a closing brace met in
    literal text. *)
Inductive fstate : Type :=
| Text
| Open
| Field (name : string)
| Close.

Definition rmap {A B : Type} (f : A -> B) (r : result A) : result B :=
  match r with
  | Return a => Return (f a)
  | Raise e => Raise e
  end.

(** [template.format] called with keyword arguments [kw], from scanner
    state [st].  The template is scanned once, left to right: a doubled
    brace stands for one brace, a field is replaced by the text of its
    argument, and that text is never scanned again, so braces inside an
    argument are copied as they are.  Conversions, format specifications
    and nested fields, which no template of the library has, are outside
    this fragment: their characters are read as part of the field name. *)
Fixpoint format_from (st : fstate) (tmpl : string) (kw : kwargs)
  : result string :=
  match tmpl with
  | EmptyString =>
      match st with
      | Text => Return EmptyString
      | _ => Raise ValueError
      end
  | String c rest =>
      match st with
      | Text =>
          if Ascii.eqb c "{"%char then format_from Open rest kw
          else if Ascii.eqb c "}"%char then format_from Close rest kw
          else rmap (String c) (format_from Text rest kw)
      | Open =>
          if Ascii.eqb c "{"%char then
            rmap (String "{"%char) (format_from Text rest kw)
          else if Ascii.eqb c "}"%char then Raise IndexError
          else format_from (Field (String c EmptyString)) rest kw
      | Field name =>
          if Ascii.eqb c "}"%char then
            match kwlookup name kw with
            | None => Raise (KeyError name)
            | Some v => rmap (String.append (py_str v)) (format_from Text rest kw)
            end
          else format_from (Field (name ++ String c EmptyString)) rest kw
      | Close =>
          if Ascii.eqb c "}"%char then
            rmap (String "}"%char) (format_from Text rest kw)
          else Raise ValueError
      end
  end.

Definition format (tmpl : string) (kw : kwargs) : result string :=
  format_from Text tmpl kw.

(** [prefix_of p s]: [s.startswith(p)]. *)
Fixpoint prefix_of (p s : string) : bool :=
  match p with
  | EmptyString => true
  | String a p' =>
      match s with
      | EmptyString => false
      | String b s' => Ascii.eqb a b && prefix_of p' s'
      end
  end.

(** [str_in sub s]: the Python test [sub in s] on two strings. *)
Fixpoint str_in (sub s : string) : bool :=
  prefix_of sub s ||
  match s with
  | EmptyString => false
  | String _ s' => str_in sub s'
  end.

(** ** Exceptions and the engine node

    A call [enode(cmd, shell='bash')] is recorded with both of its
    arguments.  The node itself is any type of remote states with a
    transition that consumes a call and yields the captured output.  A
    call that does not come back, because the channel itself raises, is
    not part of this model: the library neither catches nor raises such
    an exception, and every statement below is about calls that return
    their output. *)

Record call : Type := Call { command : string; shell : string }.

Class Enode (Node : Type) : Type :=
  execute : call -> Node -> Node * string.

(** What a library function can change: the state of the remote node, and
    the calls it has received, oldest first. *)
Record world (Node : Type) : Type :=
  World { sent : list call; node : Node }.

(** A Python function body: it runs in a world, and either returns or
    raises, leaving the world as it was at that point. *)
Definition M (Node A : Type) : Type :=
  world Node -> world Node * result A.

Definition ret {Node A : Type} (a : A) : M Node A :=
  fun w => (w, Return a).

Definition raise {Node A : Type} (e : exn) : M Node A :=
  fun w => (w, Raise e).

Definition bind {Node A B : Type} (m : M Node A) (k : A -> M Node B)
  : M Node B :=
  fun w =>
    match m w with
    | (w', Return a) => k a w'
    | (w', Raise e) => (w', Raise e)
    end.

Declare Scope py_scope.
Delimit Scope py_scope with py.
Notation "x <- m ;; k" := (bind m (fun x => k))
  (at level 61, m at next level, right associativity) : py_scope.
Notation "m ;; k" := (bind m (fun _ => k))
  (at level 61, right associativity) : py_scope.
Local Open Scope py_scope.

(** [assert b]. *)
Definition assert_ {Node : Type} (b : bool) : M Node unit :=
  if b then ret tt else raise AssertionError.

(** An expression that may raise, evaluated inside a function body. *)
Definition lift {Node A : Type} (r : result A) : M Node A :=
  fun w => (w, r).

(** The world after the node has received call [c], and the output. *)
Definition after_call {Node : Type} {E : Enode Node} (c : call)
  (w : world Node) : world Node :=
  World (sent w ++ [c]) (fst (execute c (node w))).

Definition output_of {Node : Type} {E : Enode Node} (c : call)
  (w : world Node) : string :=
  snd (execute c (node w)).

(** [enode(cmd, shell=sh)]. *)
Definition enode {Node : Type} {E : Enode Node} (cmd sh : string)
  : M Node string :=
  fun w => (after_call (Call cmd sh) w, Return (output_of (Call cmd sh) w)).

(** ** library.py *)

(** The double quote character, which the templates contain. *)
Definition dq : string := String (ascii_of_nat 34) EmptyString.

Definition CONFIG_FILE : string := "/etc/ntp.conf".
Definition KEYS_FILE : string := "/etc/ntp.keys".

Section Library.

Context {Node : Type} {E : Enode Node}.

Definition ntpd_stop : M Node unit :=
  let cmd := "/etc/init.d/ntp stop" in
  ntpd_stop_re <- enode cmd "bash" ;;
  assert_ (str_in "done" ntpd_stop_re).

Definition add_ntp_server (server : string) : M Node unit :=
  assert_ (truthy server) ;;
  cmd <- lift (format ("echo " ++ dq ++ "server {server}" ++ dq
                       ++ " >> {config_file}")
                 [("server", PyStr server);
                  ("config_file", PyStr CONFIG_FILE)]) ;;
  enode cmd "bash" ;;
  ret tt.

Definition remove_ntp_server (server : string) : M Node unit :=
  assert_ (truthy server) ;;
  cmd <- lift (format "sed -i '/{server}/d' {config_file}"
                 [("server", PyStr server);
                  ("config_file", PyStr CONFIG_FILE)]) ;;
  enode cmd "bash" ;;
  ret tt.

Definition add_trustedkey (trustedkey_id : Z) : M Node unit :=
  assert_ ((trustedkey_id >? 0) && (trustedkey_id <? 65535)) ;;
  cmd <- lift (format ("echo " ++ dq ++ "trustedkey {trustedkey_id}" ++ dq
                       ++ " >> {config_file}")
                 [("trustedkey_id", PyInt trustedkey_id);
                  ("config_file", PyStr CONFIG_FILE)]) ;;
  enode cmd "bash" ;;
  ret tt.

Definition remove_trustedkey (trustedkey_id : Z) : M Node unit :=
  assert_ ((trustedkey_id >? 0) && (trustedkey_id <? 65535)) ;;
  cmd <- lift (format "sed -i '/trustedkey {trustedkey_id}/d' {config_file}"
                 [("trustedkey_id", PyInt trustedkey_id);
                  ("config_file", PyStr CONFIG_FILE)]) ;;
  enode cmd "bash" ;;
  ret tt.

(** The default of [type] is ['M']; a caller that leaves it out passes
    [default_type]. *)
Definition default_type : string := "M".

Definition add_trustedkey_password (trustedkey_id : Z) (key : string)
  (type : string) : M Node unit :=
  assert_ ((trustedkey_id >? 0) && (trustedkey_id <? 65535)) ;;
  assert_ (truthy key) ;;
  cmd <- lift (format ("echo " ++ dq ++ "{trustedkey_id} {type} {key}" ++ dq
                       ++ " >> {keys_file}")
                 [("trustedkey_id", PyInt trustedkey_id);
                  ("type", PyStr type);
                  ("key", PyStr key);
                  ("keys_file", PyStr KEYS_FILE)]) ;;
  enode cmd "bash" ;;
  ret tt.

Definition remove_trustedkey_password (trustedkey_id : Z) : M Node unit :=
  assert_ ((trustedkey_id >? 0) && (trustedkey_id <? 65535)) ;;
  cmd <- lift (format "sed -i '/{trustedkey_id}[[:space:]]/d' {keys_file}"
                 [("trustedkey_id", PyInt trustedkey_id);
                  ("keys_file", PyStr KEYS_FILE)]) ;;
  enode cmd "bash" ;;
  ret tt.

(** [trustedkey_id] is an [int] or [None]; a caller that leaves the two
    arguments out passes [false] and [None], their defaults. *)
Definition pyval_of_id (trustedkey_id : option Z) : pyval :=
  match trustedkey_id with
  | Some z => PyInt z
  | None => PyNone
  end.

Definition is_not_None (trustedkey_id : option Z) : bool :=
  match trustedkey_id with
  | Some _ => true
  | None => false
  end.

Definition ntpd_config_files (keyfile : bool) (trustedkey_id : option Z)
  : M Node unit :=
  cmd <- lift (format "ntpd -c {config_file}"
                 [("config_file", PyStr CONFIG_FILE)]) ;;
  cmd <- (if keyfile then
            assert_ (is_not_None trustedkey_id) ;;
            opts <- lift (format " -k {keys_file} -t {trustedkey_id}"
                            [("keys_file", PyStr KEYS_FILE);
                             ("trustedkey_id", pyval_of_id trustedkey_id)]) ;;
            ret (cmd ++ opts)%string
          else ret cmd) ;;
  enode cmd "bash" ;;
  ret tt.

Definition ntpd_start : M Node unit :=
  let cmd := "/etc/init.d/ntp start" in
  ntpd_start_re <- enode cmd "bash" ;;
  assert_ (str_in "done" ntpd_start_re).

End Library.

(** ** Two engine nodes

    [Oracle] is a node without state of its own that answers every call
    with the output a given function chooses; it stands for any channel
    when only the output matters.

    [Shell] is a simulated remote shell on the two files the library
    edits.  It understands the two shapes of command the library sends to
    edit them, with the meaning POSIX gives them:
    - [echo "TEXT" >> PATH] appends the line [TEXT] to the file [PATH];
    - [sed -i '/RE/d' PATH] deletes from [PATH] every line in which the
      regular expression [RE] matches somewhere.
    [TEXT] is taken literally, as one line, when it holds no character the
    shell expands inside double quotes and no newline, and [RE] is a
    sequence of ordinary characters and of the bracket expression
    [[[:space:]]]; a command outside this fragment leaves the files as they
    are. *)

Module Oracle.

Definition answers (reply : call -> string) : Enode unit :=
  fun c st => (st, reply c).

(** The node that prints nothing. *)
Definition silent : Enode unit := answers (fun _ => EmptyString).

Definition start : world unit := World [] tt.

End Oracle.

Module Shell.

(** A file is the list of its lines. *)
Record files : Type :=
  Files { ntp_conf : list string; ntp_keys : list string }.

Inductive path : Type :=
| NtpConf
| NtpKeys.

Definition path_of (s : string) : option path :=
  if String.eqb s CONFIG_FILE then Some NtpConf
  else if String.eqb s KEYS_FILE then Some NtpKeys
  else None.

Definition read (p : path) (fs : files) : list string :=
  match p with
  | NtpConf => ntp_conf fs
  | NtpKeys => ntp_keys fs
  end.

Definition write (p : path) (lines : list string) (fs : files) : files :=
  match p with
  | NtpConf => Files lines (ntp_keys fs)
  | NtpKeys => Files (ntp_conf fs) lines
  end.

(** Regular expressions of the fragment. *)
Inductive atom : Type :=
| Lit (c : ascii)
| SpaceClass.

Definition regex : Type := list atom.

(** The characters of the class [[:space:]] in the POSIX locale: space,
    tab, newline, vertical tab, form feed, carriage return. *)
Definition is_space (c : ascii) : bool :=
  let n := nat_of_ascii c in
  (Nat.eqb n 32 || (Nat.leb 9 n && Nat.leb n 13))%bool.

(** Characters that are not ordinary in a basic regular expression, or
    that end the pattern or the quoted script. *)
Definition re_special (c : ascii) : bool :=
  existsb (Ascii.eqb c)
    ["."; "*"; "["; "]"; "\"; "^"; "$"; "/"; "'"]%char.

(** [parse_re skip s]: the atoms of [s], once [skip] characters that
    belong to a bracket expression already read are passed over. *)
Fixpoint parse_re (skip : nat) (s : string) : option regex :=
  match s with
  | EmptyString => Some []
  | String c rest =>
      match skip with
      | S k => parse_re k rest
      | O =>
          if prefix_of "[[:space:]]" s then
            option_map (cons SpaceClass) (parse_re 10 rest)
          else if re_special c then None
          else option_map (cons (Lit c)) (parse_re 0 rest)
      end
  end.

Definition atom_matches (a : atom) (c : ascii) : bool :=
  match a with
  | Lit x => Ascii.eqb x c
  | SpaceClass => is_space c
  end.

(** [re] matches a prefix of [s]. *)
Fixpoint match_here (re : regex) (s : string) : bool :=
  match re with
  | [] => true
  | a :: re' =>
      match s with
      | EmptyString => false
      | String c s' => atom_matches a c && match_here re' s'
      end
  end.

(** [re] matches somewhere in [s]: the pattern is not anchored. *)
Fixpoint re_search (re : regex) (s : string) : bool :=
  match_here re s ||
  match s with
  | EmptyString => false
  | String _ s' => re_search re s'
  end.

(** Characters that the shell does not copy as they are inside double
    quotes. *)
Definition dq_special (c : ascii) : bool :=
  existsb (Ascii.eqb c) ["$"; "`"; "\"; "!"]%char.

(** A character that can stand inside a line of a file: any but the
    newline. *)
Definition in_line (c : ascii) : bool :=
  negb (Ascii.eqb c (ascii_of_nat 10)).

(** [strip_prefix p s]: what follows [p] in [s], when [s] starts with
    [p]. *)
Fixpoint strip_prefix (p s : string) : option string :=
  match p with
  | EmptyString => Some s
  | String a p' =>
      match s with
      | EmptyString => None
      | String b s' => if Ascii.eqb a b then strip_prefix p' s' else None
      end
  end.

(** [read_until stop s]: the text of [s] before the first [stop], and
    what follows that [stop]. *)
Fixpoint read_until (stop : ascii) (s : string) : option (string * string) :=
  match s with
  | EmptyString => None
  | String c rest =>
      if Ascii.eqb c stop then Some (EmptyString, rest)
      else option_map (fun tr => (String c (fst tr), snd tr))
             (read_until stop rest)
  end.

Fixpoint all_chars (ok : ascii -> bool) (s : string) : bool :=
  match s with
  | EmptyString => true
  | String c rest => ok c && all_chars ok rest
  end.

Inductive cmd : Type :=
| Append (line : string) (p : path)
| DeleteMatching (re : regex) (p : path).

Definition parse_echo (s : string) : option cmd :=
  match strip_prefix ("echo " ++ dq) s with
  | None => None
  | Some s1 =>
      match read_until (ascii_of_nat 34) s1 with
      | None => None
      | Some (text, s2) =>
          match strip_prefix " >> " s2 with
          | None => None
          | Some s3 =>
              match path_of s3 with
              | None => None
              | Some p =>
                  if all_chars (fun c => negb (dq_special c) && in_line c)
                       text
                  then Some (Append text p) else None
              end
          end
      end
  end.

Definition parse_sed (s : string) : option cmd :=
  match strip_prefix "sed -i '/" s with
  | None => None
  | Some s1 =>
      match read_until "/"%char s1 with
      | None => None
      | Some (pat, s2) =>
          match strip_prefix "d' " s2 with
          | None => None
          | Some s3 =>
              match path_of s3, parse_re 0 pat with
              | Some p, Some re => Some (DeleteMatching re p)
              | _, _ => None
              end
          end
      end
  end.

Definition parse (s : string) : option cmd :=
  match parse_echo s with
  | Some c => Some c
  | None => parse_sed s
  end.

Definition run (c : cmd) (fs : files) : files :=
  match c with
  | Append line p => write p (read p fs ++ [line]) fs
  | DeleteMatching re p =>
      write p (filter (fun l => negb (re_search re l)) (read p fs)) fs
  end.

(** The simulated node: a call in the [bash] shell runs the command, and
    the two commands print nothing. *)
Definition sh : Enode files :=
  fun c fs =>
    if String.eqb (shell c) "bash" then
      match parse (command c) with
      | Some k => (run k fs, EmptyString)
      | None => (fs, EmptyString)
      end
    else (fs, EmptyString).

Definition start (fs : files) : world files := World [] fs.

End Shell.

(** ** What the specification calls the two kinds of failure

    Both are an [AssertionError] in the source.  A precondition violation
    is one raised before anything was sent: the world is as it was.  A
    verification failure is one raised after the command [cmd] was sent
    and the node has run it. *)

Definition PreconditionViolation {Node A : Type} (m : M Node A)
  (w : world Node) : Prop :=
  m w = (w, Raise AssertionError).

Definition VerificationFailure {Node A : Type} {E : Enode Node} (m : M Node A)
  (cmd : string) (w : world Node) : Prop :=
  m w = (after_call (Call cmd "bash") w, Raise AssertionError).

(** The function returns normally after it has sent [cmd], and nothing
    else, to the [bash] shell of the node. *)
Definition sends_exactly {Node : Type} {E : Enode Node} (m : M Node unit)
  (cmd : string) (w : world Node) : Prop :=
  m w = (after_call (Call cmd "bash") w, Return tt).

(** [sub] occurs in [s]. *)
Definition occurs_in (sub s : string) : Prop :=
  exists pre post : string, s = (pre ++ sub ++ post)%string.

#[local] Existing Instance Oracle.silent.

(** The four operations on one trusted key. *)
Inductive key_op : Type :=
| AddTrustedKey
| RemoveTrustedKey
| AddTrustedKeyPassword (key type : string)
| RemoveTrustedKeyPassword.

Definition run_key_op {Node : Type} {E : Enode Node} (op : key_op)
  (trustedkey_id : Z) : M Node unit :=
  match op with
  | AddTrustedKey => add_trustedkey trustedkey_id
  | RemoveTrustedKey => remove_trustedkey trustedkey_id
  | AddTrustedKeyPassword key type =>
      add_trustedkey_password trustedkey_id key type
  | RemoveTrustedKeyPassword => remove_trustedkey_password trustedkey_id
  end.

(** ** The exported functions

    [__all__] lists nine functions.  An [operation] is a call to one of
    them with its arguments, the engine node apart. *)
Inductive operation : Type :=
| NtpdStop
| AddNtpServer (server : string)
| RemoveNtpServer (server : string)
| AddTrustedkey (trustedkey_id : Z)
| RemoveTrustedkey (trustedkey_id : Z)
| AddTrustedkeyPassword (trustedkey_id : Z) (key type : string)
| RemoveTrustedkeyPassword (trustedkey_id : Z)
| NtpdConfigFiles (keyfile : bool) (trustedkey_id : option Z)
| NtpdStart.

Definition call_op {Node : Type} {E : Enode Node} (op : operation)
  : M Node unit :=
  match op with
  | NtpdStop => ntpd_stop
  | AddNtpServer server => add_ntp_server server
  | RemoveNtpServer server => remove_ntp_server server
  | AddTrustedkey trustedkey_id => add_trustedkey trustedkey_id
  | RemoveTrustedkey trustedkey_id => remove_trustedkey trustedkey_id
  | AddTrustedkeyPassword trustedkey_id key type =>
      add_trustedkey_password trustedkey_id key type
  | RemoveTrustedkeyPassword trustedkey_id =>
      remove_trustedkey_password trustedkey_id
  | NtpdConfigFiles keyfile trustedkey_id =>
      ntpd_config_files keyfile trustedkey_id
  | NtpdStart => ntpd_start
  end.

(** What the asserts that precede the call to [enode] ask of the
    arguments. *)
Definition precondition (op : operation) : Prop :=
  match op with
  | NtpdStop | NtpdStart => True
  | AddNtpServer server | RemoveNtpServer server => server <> EmptyString
  | AddTrustedkey z | RemoveTrustedkey z | RemoveTrustedkeyPassword z =>
      0 < z < 65535
  | AddTrustedkeyPassword z key _ => 0 < z < 65535 /\ key <> EmptyString
  | NtpdConfigFiles keyfile trustedkey_id =>
      keyfile = true -> trustedkey_id <> None
  end.

(** The test each function makes before its call, as the source computes
    it. *)
Definition accepts (op : operation) : bool :=
  match op with
  | NtpdStop | NtpdStart => true
  | AddNtpServer server | RemoveNtpServer server => truthy server
  | AddTrustedkey z | RemoveTrustedkey z | RemoveTrustedkeyPassword z =>
      (z >? 0) && (z <? 65535)
  | AddTrustedkeyPassword z key _ => (z >? 0) && (z <? 65535) && truthy key
  | NtpdConfigFiles keyfile trustedkey_id =>
      negb keyfile || is_not_None trustedkey_id
  end.

(** The two functions that read the output of their command. *)
Definition checks_output (op : operation) : bool :=
  match op with
  | NtpdStop | NtpdStart => true
  | _ => false
  end.

(** ** Vocabulary for the simulated files *)

(** The regular expression that matches the characters of [s], one by
    one. *)
Fixpoint lits (s : string) : Shell.regex :=
  match s with
  | EmptyString => []
  | String c s' => Shell.Lit c :: lits s'
  end.

Definition is_digit (c : ascii) : bool :=
  (Nat.leb 48 (nat_of_ascii c) && Nat.leb (nat_of_ascii c) 57)%bool.

(** A printable ASCII character that the shell copies as it is inside
    double quotes: a character from the space to the tilde that is not
    the double quote and not one the shell expands there.  Control
    characters, the newline among them, are not [quotable]. *)
Definition quotable (c : ascii) : bool :=
  (Nat.leb 32 (nat_of_ascii c) && Nat.leb (nat_of_ascii c) 126
   && negb (Shell.dq_special c)
   && negb (Ascii.eqb c (ascii_of_nat 34)))%bool.

(** A character that is ordinary in a basic regular expression and does
    not end the pattern. *)
Definition ordinary (c : ascii) : bool :=
  negb (Shell.re_special c).

(** Somewhere in [l] the text [d] is followed by a character of the class
    [[:space:]]. *)
Definition followed_by_space (d l : string) : Prop :=
  exists (pre : string) (c : ascii) (post : string),
    l = (pre ++ d ++ String c post)%string /\ Shell.is_space c = true.

Definition path_name (p : Shell.path) : string :=
  match p with
  | Shell.NtpConf => CONFIG_FILE
  | Shell.NtpKeys => KEYS_FILE
  end.

(** The two files after [m] has run on the simulated node that held
    [fs]. *)
Definition files_after {A : Type} (m : M Shell.files A) (fs : Shell.files)
  : Shell.files :=
  node (fst (m (Shell.start fs))).

Example str_of_int_5 : str_of_int 5 = "5".
Proof. reflexivity. Qed.

Example str_of_int_0 : str_of_int 0 = "0".
Proof. reflexivity. Qed.

Example str_of_int_neg : str_of_int (-12) = "-12".
Proof. reflexivity. Qed.

Example format_ex :
  format "a {x} b {y}" [("x", PyStr "{y}"); ("y", PyInt 70000)]
  = Return "a {y} b 70000".
Proof. reflexivity. Qed.

Example str_in_ex : str_in "done" "Starting ntpd... done" = true.
Proof. reflexivity. Qed.

Example empty_type_line :
  node (fst (add_trustedkey_password (E := Shell.sh) 5 "secret" EmptyString
               (Shell.start (Shell.Files [] []))))
  = Shell.Files [] ["5  secret"].
Proof. reflexivity. Qed.

Example shell_ex :
  fst ((add_trustedkey_password (E := Shell.sh) 5 "secret" "M" ;;
        remove_trustedkey_password (E := Shell.sh) 5)
         (Shell.start (Shell.Files ["server a"] ["51 M x"; "5 M old"; "55 M other"])))
  = World [Call ("echo " ++ dq ++ "5 M secret" ++ dq ++ " >> /etc/ntp.keys") "bash";
           Call "sed -i '/5[[:space:]]/d' /etc/ntp.keys" "bash"]
      (Shell.Files ["server a"] ["51 M x"]).
Proof. reflexivity. Qed.

(** ** Facts about the primitives *)

Lemma prefix_of_spec (p s : string) :
  prefix_of p s = true <-> exists post : string, s = (p ++ post)%string.
Proof.
  revert s; induction p as [|a p IH]; intros s; simpl.
  - split; [intros _; now exists s | reflexivity].
  - destruct s as [|b s].
    + split; [discriminate | intros [post Hpost]; discriminate].
    + rewrite andb_true_iff, Ascii.eqb_eq, IH. split.
      * intros [-> [post ->]]. now exists post.
      * intros [post Hpost]. injection Hpost as -> ->. split; [reflexivity | now exists post].
Qed.

Lemma str_in_spec (sub s : string) :
  str_in sub s = true <-> occurs_in sub s.
Proof.
  unfold occurs_in. induction s as [|c s IH].
  - simpl. rewrite orb_false_r, prefix_of_spec. split.
    + intros [post Hpost]. now exists EmptyString, post.
    + intros [[|a pre] [post Hpost]]; [now exists post | discriminate].
  - change (str_in sub (String c s))
      with (prefix_of sub (String c s) || str_in sub s)%bool.
    rewrite orb_true_iff, prefix_of_spec, IH. split.
    + intros [[post Hpost] | [pre [post Hpost]]].
      * now exists EmptyString, post.
      * exists (String c pre), post. simpl. now rewrite Hpost.
    + intros [[|a pre] [post Hpost]].
      * left. now exists post.
      * right. simpl in Hpost. injection Hpost as _ ->. now exists pre, post.
Qed.

Lemma str_in_false (sub s : string) :
  str_in sub s = false <-> ~ occurs_in sub s.
Proof.
  rewrite <- str_in_spec. destruct (str_in sub s); split; congruence.
Qed.

Lemma append_empty_r (s : string) : (s ++ EmptyString)%string = s.
Proof.
  induction s as [|c s IH]; simpl; [reflexivity | now rewrite IH].
Qed.

Lemma in_range_true (z : Z) :
  0 < z < 65535 -> ((z >? 0) && (z <? 65535))%bool = true.
Proof.
  intros Hz. apply andb_true_iff. split.
  - apply Z.gtb_lt. lia.
  - apply Z.ltb_lt. lia.
Qed.

Lemma in_range_false (z : Z) :
  ~ 0 < z < 65535 -> ((z >? 0) && (z <? 65535))%bool = false.
Proof.
  intros Hz. apply andb_false_iff.
  destruct (Z.gtb_spec z 0); [|now left].
  destruct (Z.ltb_spec z 65535); [|now right]. lia.
Qed.

(** After [sends_exactly], the list of calls is one longer. *)
Lemma sends_exactly_sent {Node : Type} {E : Enode Node} (m : M Node unit)
  (cmd : string) (w : world Node) :
  sends_exactly m cmd w ->
  sent (fst (m w)) = (sent w ++ [Call cmd "bash"])%list.
Proof.
  unfold sends_exactly. now intros ->.
Qed.

(** ** The range check of the four key operations *)

Section RangeCheck.

Context {Node : Type} {E : Enode Node}.
Variable trustedkey_id : Z.
Hypothesis out_of_range : ~ 0 < trustedkey_id < 65535.

Lemma add_trustedkey_rejects (w : world Node) :
  add_trustedkey trustedkey_id w = (w, Raise AssertionError).
Proof.
  unfold add_trustedkey, bind, assert_.
  now rewrite (in_range_false out_of_range).
Qed.

Lemma remove_trustedkey_rejects (w : world Node) :
  remove_trustedkey trustedkey_id w = (w, Raise AssertionError).
Proof.
  unfold remove_trustedkey, bind, assert_.
  now rewrite (in_range_false out_of_range).
Qed.

Lemma add_trustedkey_password_rejects (key type : string) (w : world Node) :
  add_trustedkey_password trustedkey_id key type w
  = (w, Raise AssertionError).
Proof.
  unfold add_trustedkey_password, bind, assert_.
  now rewrite (in_range_false out_of_range).
Qed.

Lemma remove_trustedkey_password_rejects (w : world Node) :
  remove_trustedkey_password trustedkey_id w = (w, Raise AssertionError).
Proof.
  unfold remove_trustedkey_password, bind, assert_.
  now rewrite (in_range_false out_of_range).
Qed.

End RangeCheck.

(** ** What each function sends *)

Section Commands.

Context {Node : Type} {E : Enode Node}.
Variable w : world Node.

Lemma add_ntp_server_sends (server : string) :
  server <> EmptyString ->
  sends_exactly (add_ntp_server server)
    ("echo " ++ dq ++ "server " ++ server ++ dq ++ " >> /etc/ntp.conf") w.
Proof.
  intros Hs. destruct server as [|c server]; [congruence|]. reflexivity.
Qed.

Lemma remove_ntp_server_sends (server : string) :
  server <> EmptyString ->
  sends_exactly (remove_ntp_server server)
    ("sed -i '/" ++ server ++ "/d' /etc/ntp.conf") w.
Proof.
  intros Hs. destruct server as [|c server]; [congruence|]. reflexivity.
Qed.

Lemma add_trustedkey_password_sends (trustedkey_id : Z) (key type : string) :
  0 < trustedkey_id < 65535 ->
  key <> EmptyString ->
  sends_exactly (add_trustedkey_password trustedkey_id key type)
    ("echo " ++ dq ++ str_of_int trustedkey_id ++ " " ++ type ++ " " ++ key
     ++ dq ++ " >> /etc/ntp.keys") w.
Proof.
  intros Hid Hkey. unfold sends_exactly, add_trustedkey_password.
  unfold bind at 1. unfold assert_ at 1. rewrite (in_range_true Hid).
  destruct key as [|c key]; [congruence|]. reflexivity.
Qed.

Lemma ntpd_config_files_plain (trustedkey_id : option Z) :
  sends_exactly (ntpd_config_files false trustedkey_id)
    "ntpd -c /etc/ntp.conf" w.
Proof. reflexivity. Qed.

Lemma ntpd_config_files_keyed (z : Z) :
  sends_exactly (ntpd_config_files true (Some z))
    ("ntpd -c /etc/ntp.conf -k /etc/ntp.keys -t " ++ str_of_int z) w.
Proof.
  unfold sends_exactly.
  rewrite <- (append_empty_r (str_of_int z)). reflexivity.
Qed.

Lemma ntpd_config_files_missing_id :
  ntpd_config_files true None w = (w, Raise AssertionError).
Proof. reflexivity. Qed.

Lemma ntpd_start_outcome :
  ntpd_start w
  = (after_call (Call "/etc/init.d/ntp start" "bash") w,
     if str_in "done" (output_of (Call "/etc/init.d/ntp start" "bash") w)
     then Return tt else Raise AssertionError).
Proof.
  unfold ntpd_start, bind, enode, assert_, ret, raise.
  now destruct (str_in "done" _).
Qed.

Lemma ntpd_stop_outcome :
  ntpd_stop w
  = (after_call (Call "/etc/init.d/ntp stop" "bash") w,
     if str_in "done" (output_of (Call "/etc/init.d/ntp stop" "bash") w)
     then Return tt else Raise AssertionError).
Proof.
  unfold ntpd_stop, bind, enode, assert_, ret, raise.
  now destruct (str_in "done" _).
Qed.

End Commands.

(** An outcome that is [Return] or [Raise] by a test, read as the two
    kinds of outcome. *)
Lemma marker_check {Node : Type} {E : Enode Node} (m : M Node unit)
  (cmd : string) (w : world Node) :
  m w = (after_call (Call cmd "bash") w,
         if str_in "done" (output_of (Call cmd "bash") w)
         then Return tt else Raise AssertionError) ->
  (VerificationFailure m cmd w
   <-> ~ occurs_in "done" (output_of (Call cmd "bash") w))
  /\ (sends_exactly m cmd w
      <-> occurs_in "done" (output_of (Call cmd "bash") w)).
Proof.
  intros Hm. unfold VerificationFailure, sends_exactly.
  rewrite <- str_in_false, <- str_in_spec, Hm.
  destruct (str_in "done" _); repeat split; congruence.
Qed.

(** ** The simulated key file *)

Section KeyFile.

(** The key file after [add_trustedkey_password(5, 'secret', 'M')] and
    [remove_trustedkey_password(5)], whatever the two files held. *)
Lemma add_remove_password_5 (fs : Shell.files) :
  (add_trustedkey_password (E := Shell.sh) 5 "secret" "M" ;;
   remove_trustedkey_password (E := Shell.sh) 5) (Shell.start fs)
  = (World
       [Call ("echo " ++ dq ++ "5 M secret" ++ dq ++ " >> /etc/ntp.keys") "bash";
        Call "sed -i '/5[[:space:]]/d' /etc/ntp.keys" "bash"]
       (Shell.Files (Shell.ntp_conf fs)
          (filter
             (fun l => negb (Shell.re_search
                               [Shell.Lit "5"%char; Shell.SpaceClass] l))
             (Shell.ntp_keys fs ++ ["5 M secret"]))),
     Return tt).
Proof. reflexivity. Qed.

Lemma search_5_space_prefix (l : string) :
  prefix_of "5 " l = true ->
  Shell.re_search [Shell.Lit "5"%char; Shell.SpaceClass] l = true.
Proof.
  intros Hl. apply prefix_of_spec in Hl as [post ->]. reflexivity.
Qed.

(** First half of the round trip: no line that starts with [5 ] is
    left. *)
Lemma add_remove_password_5_clears (fs : Shell.files) (l : string) :
  In l (Shell.ntp_keys
          (node (fst ((add_trustedkey_password (E := Shell.sh) 5 "secret" "M" ;;
                       remove_trustedkey_password (E := Shell.sh) 5)
                     (Shell.start fs))))) ->
  prefix_of "5 " l = false.
Proof.
  rewrite add_remove_password_5. cbn [fst node Shell.ntp_keys]. intros Hin.
  apply filter_In in Hin as [_ Hre].
  destruct (prefix_of "5 " l) eqn:Hp; [|reflexivity].
  now rewrite (search_5_space_prefix _ Hp) in Hre.
Qed.

(** The pattern stops an id that only extends [5] to the right. *)
Lemma add_remove_password_5_keeps_51 (fs : Shell.files) :
  In "51 M other" (Shell.ntp_keys fs) ->
  In "51 M other"
    (Shell.ntp_keys
       (node (fst ((add_trustedkey_password (E := Shell.sh) 5 "secret" "M" ;;
                    remove_trustedkey_password (E := Shell.sh) 5)
                     (Shell.start fs))))).
Proof.
  intros Hin. rewrite add_remove_password_5. cbn [fst node Shell.ntp_keys].
  apply filter_In. split; [|reflexivity].
  apply in_or_app. now left.
Qed.

(** But it does not stop one that extends [5] to the left: in no model
    of the files does [55 M other] survive. *)
Lemma add_remove_password_5_drops_55 (fs : Shell.files) :
  ~ In "55 M other"
      (Shell.ntp_keys
         (node (fst ((add_trustedkey_password (E := Shell.sh) 5 "secret" "M" ;;
                      remove_trustedkey_password (E := Shell.sh) 5)
                     (Shell.start fs))))).
Proof.
  rewrite add_remove_password_5. cbn [fst node Shell.ntp_keys]. intros Hin.
  apply filter_In in Hin as [_ Hre]. discriminate.
Qed.

End KeyFile.

(** ** The properties of the specification

    Where a property is tried on a concrete node without state, the node
    is [Oracle.silent] unless another is named. *)

(** C1, at the input where the code departs from it.  The key file holds
    the line [55 M other]; after
    [add_trustedkey_password(5, 'secret', 'M')] and
    [remove_trustedkey_password(5)] no line starts with [5 ], as the
    property asks, but the line [55 M other] is gone too: the pattern
    [5[[:space:]]] that the code sends is bounded on the right only, and
    it matches the second [5] of [55 ]. *)
Theorem remove_password_5_deletes_line_55 :
  (add_trustedkey_password (E := Shell.sh) 5 "secret" "M" ;;
   remove_trustedkey_password (E := Shell.sh) 5)
    (Shell.start (Shell.Files [] ["55 M other"]))
  = (World
       [Call ("echo " ++ dq ++ "5 M secret" ++ dq ++ " >> /etc/ntp.keys") "bash";
        Call "sed -i '/5[[:space:]]/d' /etc/ntp.keys" "bash"]
       (Shell.Files [] []),
     Return tt).
Proof. reflexivity. Qed.

(** C2 fails as stated: [ntpd_config_files] has no range check.  Given
    the id 70000 it sends its command, with the key file and without. *)
Lemma config_files_accepts_out_of_range_id :
  ~ 0 < 70000 < 65535
  /\ ntpd_config_files (E := Oracle.silent)
       true (Some 70000) Oracle.start
     = (World [Call "ntpd -c /etc/ntp.conf -k /etc/ntp.keys -t 70000" "bash"] tt,
        Return tt)
  /\ ntpd_config_files (E := Oracle.silent)
       false (Some 70000) Oracle.start
     = (World [Call "ntpd -c /etc/ntp.conf" "bash"] tt, Return tt)
  /\ ~ PreconditionViolation
         (ntpd_config_files (E := Oracle.silent)
            true (Some 70000)) Oracle.start
  /\ ~ PreconditionViolation
         (ntpd_config_files (E := Oracle.silent)
            false (Some 70000)) Oracle.start.
Proof.
  repeat split; try reflexivity; try lia;
    unfold PreconditionViolation; intros Heq; discriminate Heq.
Qed.

(** C2, amended.  The four operations on a trusted key enforce
    [0 < id < 65535]: with an id outside that range each of them raises
    before anything is sent.  [ntpd_config_files] without the key file
    never looks at the id: whatever [trustedkey_id] is, [None], an id in
    range or an id out of range, it sends its command.  With the key
    file it raises before anything is sent when the id is [None]. *)
Theorem key_ops_enforce_range {Node : Type} {E : Enode Node}
  (op : key_op) (trustedkey_id : Z) (config_id : option Z)
  (w : world Node) :
  (~ 0 < trustedkey_id < 65535 ->
   PreconditionViolation (run_key_op op trustedkey_id) w)
  /\ sends_exactly (ntpd_config_files false config_id)
       "ntpd -c /etc/ntp.conf" w
  /\ PreconditionViolation (ntpd_config_files true None) w.
Proof.
  split; [|split].
  - intros Hid. destruct op; simpl.
    + now apply add_trustedkey_rejects.
    + now apply remove_trustedkey_rejects.
    + now apply add_trustedkey_password_rejects.
    + now apply remove_trustedkey_password_rejects.
  - apply ntpd_config_files_plain.
  - apply ntpd_config_files_missing_id.
Qed.

Lemma key_ops_enforce_range_witness :
  ~ 0 < 65535 < 65535
  /\ PreconditionViolation
       (run_key_op (E := Oracle.silent)
          (AddTrustedKeyPassword "secret" "M") 65535) Oracle.start
  /\ sends_exactly (ntpd_config_files (E := Oracle.silent) false None)
       "ntpd -c /etc/ntp.conf" Oracle.start.
Proof.
  split; [lia|].
  destruct (key_ops_enforce_range (E := Oracle.silent)
              (AddTrustedKeyPassword "secret" "M") 65535 None Oracle.start)
    as [Hkey [Hconfig _]].
  split; [apply Hkey; lia | exact Hconfig].
Defined.

(** C3.  For every integer id with [id <= 0] or [id >= 65535], each of
    [add_trustedkey], [remove_trustedkey], [add_trustedkey_password] and
    [remove_trustedkey_password] raises [AssertionError] with the world
    untouched: no call reaches the engine node. *)
Theorem out_of_range_id_raises {Node : Type} {E : Enode Node}
  (trustedkey_id : Z) (key type : string) (w : world Node) :
  trustedkey_id <= 0 \/ trustedkey_id >= 65535 ->
  add_trustedkey trustedkey_id w = (w, Raise AssertionError)
  /\ remove_trustedkey trustedkey_id w = (w, Raise AssertionError)
  /\ add_trustedkey_password trustedkey_id key type w
     = (w, Raise AssertionError)
  /\ remove_trustedkey_password trustedkey_id w = (w, Raise AssertionError).
Proof.
  intros Hid.
  assert (Hout : ~ 0 < trustedkey_id < 65535) by lia.
  repeat split.
  - now apply add_trustedkey_rejects.
  - now apply remove_trustedkey_rejects.
  - now apply add_trustedkey_password_rejects.
  - now apply remove_trustedkey_password_rejects.
Qed.

Lemma out_of_range_id_raises_witness :
  (0 <= 0 \/ 0 >= 65535)
  /\ remove_trustedkey (E := Oracle.silent) 0
       Oracle.start
     = (World [] tt, Raise AssertionError).
Proof.
  split; [left; lia|].
  apply (out_of_range_id_raises (E := Oracle.silent)
           (trustedkey_id := 0) "secret" "M" Oracle.start).
  left; lia.
Defined.

(** C4.  [ntpd_start] sends the start command and then raises
    [AssertionError] exactly when the output that came back does not
    contain [done]; it returns normally exactly when the output contains
    it.  [ntpd_stop] does the same with the stop command.  On the output
    [Starting ntpd... done] the start returns normally. *)
Theorem start_stop_check_marker {Node : Type} {E : Enode Node}
  (w : world Node) :
  (VerificationFailure ntpd_start "/etc/init.d/ntp start" w
   <-> ~ occurs_in "done" (output_of (Call "/etc/init.d/ntp start" "bash") w))
  /\ (sends_exactly ntpd_start "/etc/init.d/ntp start" w
      <-> occurs_in "done" (output_of (Call "/etc/init.d/ntp start" "bash") w))
  /\ (VerificationFailure ntpd_stop "/etc/init.d/ntp stop" w
      <-> ~ occurs_in "done" (output_of (Call "/etc/init.d/ntp stop" "bash") w))
  /\ (sends_exactly ntpd_stop "/etc/init.d/ntp stop" w
      <-> occurs_in "done" (output_of (Call "/etc/init.d/ntp stop" "bash") w))
  /\ ntpd_start (E := Oracle.answers (fun _ => "Starting ntpd... done"))
       Oracle.start
     = (World [Call "/etc/init.d/ntp start" "bash"] tt, Return tt).
Proof.
  pose proof (marker_check ntpd_start (ntpd_start_outcome w)) as [Hs1 Hs2].
  pose proof (marker_check ntpd_stop (ntpd_stop_outcome w)) as [Ht1 Ht2].
  repeat split; try tauto.
Qed.

(** C5.  Without the key file [ntpd_config_files] sends exactly
    [ntpd -c /etc/ntp.conf], whatever [trustedkey_id] is; with the key
    file and the id 7 it sends exactly
    [ntpd -c /etc/ntp.conf -k /etc/ntp.keys -t 7].  Either way the list
    of calls grows by that one call. *)
Theorem config_files_commands {Node : Type} {E : Enode Node}
  (trustedkey_id : option Z) (w : world Node) :
  ntpd_config_files false trustedkey_id w
  = (after_call (Call "ntpd -c /etc/ntp.conf" "bash") w, Return tt)
  /\ sent (fst (ntpd_config_files false trustedkey_id w))
     = (sent w ++ [Call "ntpd -c /etc/ntp.conf" "bash"])%list
  /\ ntpd_config_files true (Some 7) w
     = (after_call
          (Call "ntpd -c /etc/ntp.conf -k /etc/ntp.keys -t 7" "bash") w,
        Return tt)
  /\ sent (fst (ntpd_config_files true (Some 7) w))
     = (sent w
        ++ [Call "ntpd -c /etc/ntp.conf -k /etc/ntp.keys -t 7" "bash"])%list.
Proof.
  repeat split.
Qed.

(** C6.  [ntpd_config_files] with the key file and [trustedkey_id=None]
    raises [AssertionError] before anything is sent. *)
Theorem config_files_requires_id {Node : Type} {E : Enode Node}
  (w : world Node) :
  PreconditionViolation (ntpd_config_files true None) w
  /\ sent (fst (ntpd_config_files true None w)) = sent w.
Proof.
  split; reflexivity.
Qed.

(** C7.  For a non-empty address [add_ntp_server] sends one command,
    [echo "server <address>" >> /etc/ntp.conf] with the address in
    place; for the empty address it raises [AssertionError] and sends
    nothing. *)
Theorem add_server_command {Node : Type} {E : Enode Node}
  (address : string) (w : world Node) :
  (address <> EmptyString ->
   sends_exactly (add_ntp_server address)
     ("echo " ++ dq ++ "server " ++ address ++ dq ++ " >> /etc/ntp.conf") w)
  /\ (address = EmptyString ->
      PreconditionViolation (add_ntp_server address) w).
Proof.
  split.
  - apply add_ntp_server_sends.
  - intros ->. reflexivity.
Qed.

Lemma add_server_command_witness :
  sends_exactly
    (add_ntp_server (E := Oracle.silent) "10.0.0.1")
    ("echo " ++ dq ++ "server 10.0.0.1" ++ dq ++ " >> /etc/ntp.conf")
    Oracle.start
  /\ PreconditionViolation
       (add_ntp_server (E := Oracle.silent)
          EmptyString) Oracle.start.
Proof.
  split.
  - apply (add_server_command (E := Oracle.silent)
             "10.0.0.1" Oracle.start).
    discriminate.
  - apply (add_server_command (E := Oracle.silent)
             EmptyString Oracle.start).
    reflexivity.
Defined.

(** C8.  For a non-empty address [remove_ntp_server] sends one command,
    [sed -i '/<address>/d' /etc/ntp.conf] with the address in place; for
    the empty address it raises [AssertionError] and sends nothing. *)
Theorem remove_server_command {Node : Type} {E : Enode Node}
  (address : string) (w : world Node) :
  (address <> EmptyString ->
   sends_exactly (remove_ntp_server address)
     ("sed -i '/" ++ address ++ "/d' /etc/ntp.conf") w)
  /\ (address = EmptyString ->
      PreconditionViolation (remove_ntp_server address) w).
Proof.
  split.
  - apply remove_ntp_server_sends.
  - intros ->. reflexivity.
Qed.

Lemma remove_server_command_witness :
  sends_exactly
    (remove_ntp_server (E := Oracle.silent)
       "10.0.0.1")
    "sed -i '/10.0.0.1/d' /etc/ntp.conf" Oracle.start
  /\ PreconditionViolation
       (remove_ntp_server (E := Oracle.silent)
          EmptyString) Oracle.start.
Proof.
  split.
  - apply (remove_server_command (E := Oracle.silent)
             "10.0.0.1" Oracle.start).
    discriminate.
  - apply (remove_server_command (E := Oracle.silent)
             EmptyString Oracle.start).
    reflexivity.
Defined.

(** C9.  Without the key file the outcome of [ntpd_config_files] does
    not depend on [trustedkey_id]: in one world two calls with any two
    ids, [None] and integers out of range among them, end alike, and in
    any two worlds the call they add is the same. *)
Theorem config_files_ignores_id {Node : Type} {E : Enode Node}
  (id1 id2 : option Z) (w1 w2 : world Node) :
  ntpd_config_files false id1 w1 = ntpd_config_files false id2 w1
  /\ exists c : call,
      sent (fst (ntpd_config_files false id1 w1)) = (sent w1 ++ [c])%list
      /\ sent (fst (ntpd_config_files false id2 w2)) = (sent w2 ++ [c])%list.
Proof.
  split; [reflexivity|].
  exists (Call "ntpd -c /etc/ntp.conf" "bash"). split; reflexivity.
Qed.

(** C10.  [add_trustedkey_password] does not look at [type]: for every
    id with [0 < id < 65535], every non-empty key and every type it
    sends exactly [echo "<id> <type> <key>" >> /etc/ntp.keys], and with
    the empty type the line it writes has two spaces in a row between
    the id and the key. *)
Theorem password_type_not_validated {Node : Type} {E : Enode Node}
  (trustedkey_id : Z) (key type : string) (w : world Node) :
  0 < trustedkey_id < 65535 ->
  key <> EmptyString ->
  sends_exactly (add_trustedkey_password trustedkey_id key type)
    ("echo " ++ dq ++ str_of_int trustedkey_id ++ " " ++ type ++ " " ++ key
     ++ dq ++ " >> /etc/ntp.keys") w
  /\ sends_exactly (add_trustedkey_password trustedkey_id key EmptyString)
       ("echo " ++ dq ++ str_of_int trustedkey_id ++ "  " ++ key
        ++ dq ++ " >> /etc/ntp.keys") w.
Proof.
  intros Hid Hkey. split.
  - now apply add_trustedkey_password_sends.
  - pose proof (add_trustedkey_password_sends w EmptyString Hid Hkey) as Hs.
    exact Hs.
Qed.

Lemma password_type_not_validated_witness :
  0 < 5 < 65535
  /\ "secret" <> EmptyString
  /\ sends_exactly
       (add_trustedkey_password (E := Oracle.silent)
          5 "secret" EmptyString)
       ("echo " ++ dq ++ "5  secret" ++ dq ++ " >> /etc/ntp.keys")
       Oracle.start.
Proof.
  split; [lia|]. split; [discriminate|].
  apply (password_type_not_validated
           (E := Oracle.silent)
           (trustedkey_id := 5) (key := "secret") "M" Oracle.start).
  - lia.
  - discriminate.
Defined.

(** ** The outcome of every function

    Each function is a test of its arguments followed by one call; the
    lemmas below give the whole outcome as a function of the arguments. *)

Section Outcomes.

Context {Node : Type} {E : Enode Node}.
Variable w : world Node.

Lemma add_ntp_server_outcome (server : string) :
  add_ntp_server server w
  = if truthy server
    then (after_call
            (Call ("echo " ++ dq ++ "server " ++ server ++ dq
                   ++ " >> /etc/ntp.conf") "bash") w,
          Return tt)
    else (w, Raise AssertionError).
Proof. now destruct server. Qed.

Lemma remove_ntp_server_outcome (server : string) :
  remove_ntp_server server w
  = if truthy server
    then (after_call
            (Call ("sed -i '/" ++ server ++ "/d' /etc/ntp.conf") "bash") w,
          Return tt)
    else (w, Raise AssertionError).
Proof. now destruct server. Qed.

Lemma add_trustedkey_outcome (z : Z) :
  add_trustedkey z w
  = if ((z >? 0) && (z <? 65535))%bool
    then (after_call
            (Call ("echo " ++ dq ++ "trustedkey " ++ str_of_int z ++ dq
                   ++ " >> /etc/ntp.conf") "bash") w,
          Return tt)
    else (w, Raise AssertionError).
Proof.
  unfold add_trustedkey. unfold bind at 1. unfold assert_ at 1.
  now destruct ((z >? 0) && (z <? 65535))%bool.
Qed.

Lemma remove_trustedkey_outcome (z : Z) :
  remove_trustedkey z w
  = if ((z >? 0) && (z <? 65535))%bool
    then (after_call
            (Call ("sed -i '/trustedkey " ++ str_of_int z
                   ++ "/d' /etc/ntp.conf") "bash") w,
          Return tt)
    else (w, Raise AssertionError).
Proof.
  unfold remove_trustedkey. unfold bind at 1. unfold assert_ at 1.
  now destruct ((z >? 0) && (z <? 65535))%bool.
Qed.

Lemma add_trustedkey_password_outcome (z : Z) (key type : string) :
  add_trustedkey_password z key type w
  = if ((z >? 0) && (z <? 65535) && truthy key)%bool
    then (after_call
            (Call ("echo " ++ dq ++ str_of_int z ++ " " ++ type ++ " " ++ key
                   ++ dq ++ " >> /etc/ntp.keys") "bash") w,
          Return tt)
    else (w, Raise AssertionError).
Proof.
  unfold add_trustedkey_password. unfold bind at 1. unfold assert_ at 1.
  destruct ((z >? 0) && (z <? 65535))%bool; [|reflexivity].
  now destruct key.
Qed.

Lemma remove_trustedkey_password_outcome (z : Z) :
  remove_trustedkey_password z w
  = if ((z >? 0) && (z <? 65535))%bool
    then (after_call
            (Call ("sed -i '/" ++ str_of_int z
                   ++ "[[:space:]]/d' /etc/ntp.keys") "bash") w,
          Return tt)
    else (w, Raise AssertionError).
Proof.
  unfold remove_trustedkey_password. unfold bind at 1. unfold assert_ at 1.
  now destruct ((z >? 0) && (z <? 65535))%bool.
Qed.

Lemma ntpd_config_files_outcome (keyfile : bool) (trustedkey_id : option Z) :
  ntpd_config_files keyfile trustedkey_id w
  = match keyfile, trustedkey_id with
    | false, _ =>
        (after_call (Call "ntpd -c /etc/ntp.conf" "bash") w, Return tt)
    | true, Some z =>
        (after_call
           (Call ("ntpd -c /etc/ntp.conf -k /etc/ntp.keys -t "
                  ++ str_of_int z) "bash") w,
         Return tt)
    | true, None => (w, Raise AssertionError)
    end.
Proof.
  destruct keyfile; [|reflexivity].
  destruct trustedkey_id as [z|]; [|reflexivity].
  apply ntpd_config_files_keyed.
Qed.

End Outcomes.

Lemma after_call_changes {Node : Type} {E : Enode Node} (c : call)
  (w : world Node) :
  after_call c w <> w.
Proof.
  intros Heq. apply (f_equal (fun x => length (sent x))) in Heq.
  unfold after_call in Heq. cbn [sent] in Heq.
  rewrite length_app in Heq. simpl in Heq. lia.
Qed.

Lemma in_range_iff (z : Z) :
  ((z >? 0) && (z <? 65535))%bool = true <-> 0 < z < 65535.
Proof.
  split.
  - intros Hb. apply andb_true_iff in Hb as [H1 H2].
    apply Z.gtb_lt in H1. apply Z.ltb_lt in H2. lia.
  - apply in_range_true.
Qed.

Lemma accepts_spec (op : operation) :
  accepts op = true <-> precondition op.
Proof.
  destruct op as [|s|s|z|z|z key type|z|keyfile trustedkey_id|];
    cbn [accepts precondition].
  - tauto.
  - destruct s; simpl; split; congruence.
  - destruct s; simpl; split; congruence.
  - apply in_range_iff.
  - apply in_range_iff.
  - rewrite andb_true_iff, in_range_iff.
    destruct key; simpl; split; intros [Hz Hk]; split; congruence.
  - apply in_range_iff.
  - destruct keyfile, trustedkey_id; simpl; split; try congruence; auto.
    intros Hn. now contradiction Hn.
  - tauto.
Qed.

(** Every function at once: either the test fails and nothing happens, or
    one command goes to the [bash] shell and the outcome is the marker
    check for the two functions that have one, a normal return for the
    others. *)
Lemma call_op_outcome {Node : Type} {E : Enode Node} (op : operation)
  (w : world Node) :
  (accepts op = false /\ call_op op w = (w, Raise AssertionError))
  \/ (accepts op = true
      /\ exists cmd : string,
          call_op op w
          = (after_call (Call cmd "bash") w,
             if checks_output op
             then if str_in "done" (output_of (Call cmd "bash") w)
                  then Return tt else Raise AssertionError
             else Return tt)).
Proof.
  destruct op as [|s|s|z|z|z key type|z|keyfile trustedkey_id|];
    cbn [call_op accepts checks_output].
  - right. split; [reflexivity|]. eexists. apply ntpd_stop_outcome.
  - rewrite add_ntp_server_outcome.
    destruct (truthy s); [right | left]; split; try reflexivity.
    eexists; reflexivity.
  - rewrite remove_ntp_server_outcome.
    destruct (truthy s); [right | left]; split; try reflexivity.
    eexists; reflexivity.
  - rewrite add_trustedkey_outcome.
    destruct ((z >? 0) && (z <? 65535))%bool; [right | left];
      split; try reflexivity.
    eexists; reflexivity.
  - rewrite remove_trustedkey_outcome.
    destruct ((z >? 0) && (z <? 65535))%bool; [right | left];
      split; try reflexivity.
    eexists; reflexivity.
  - rewrite add_trustedkey_password_outcome.
    destruct ((z >? 0) && (z <? 65535) && truthy key)%bool; [right | left];
      split; try reflexivity.
    eexists; reflexivity.
  - rewrite remove_trustedkey_password_outcome.
    destruct ((z >? 0) && (z <? 65535))%bool; [right | left];
      split; try reflexivity.
    eexists; reflexivity.
  - rewrite ntpd_config_files_outcome.
    destruct keyfile; [destruct trustedkey_id as [z|]|]; simpl.
    + right. split; [reflexivity|]. eexists; reflexivity.
    + left. split; reflexivity.
    + right. split; [reflexivity|]. eexists; reflexivity.
  - right. split; [reflexivity|]. eexists. apply ntpd_start_outcome.
Qed.

(** ** Further properties of the library *)

(** X1.  For an id with [0 < id < 65535], [add_trustedkey] sends exactly
    [echo "trustedkey <id>" >> /etc/ntp.conf], [remove_trustedkey] sends
    exactly [sed -i '/trustedkey <id>/d' /etc/ntp.conf] and
    [remove_trustedkey_password] sends exactly
    [sed -i '/<id>[[:space:]]/d' /etc/ntp.keys]; each returns normally. *)
Theorem trustedkey_commands {Node : Type} {E : Enode Node}
  (trustedkey_id : Z) (w : world Node) :
  0 < trustedkey_id < 65535 ->
  sends_exactly (add_trustedkey trustedkey_id)
    ("echo " ++ dq ++ "trustedkey " ++ str_of_int trustedkey_id ++ dq
     ++ " >> /etc/ntp.conf") w
  /\ sends_exactly (remove_trustedkey trustedkey_id)
       ("sed -i '/trustedkey " ++ str_of_int trustedkey_id
        ++ "/d' /etc/ntp.conf") w
  /\ sends_exactly (remove_trustedkey_password trustedkey_id)
       ("sed -i '/" ++ str_of_int trustedkey_id
        ++ "[[:space:]]/d' /etc/ntp.keys") w.
Proof.
  intros Hid. unfold sends_exactly.
  rewrite add_trustedkey_outcome, remove_trustedkey_outcome,
    remove_trustedkey_password_outcome, (in_range_true Hid).
  repeat split.
Qed.

Lemma trustedkey_commands_witness :
  0 < 42 < 65535
  /\ sends_exactly (add_trustedkey 42)
       ("echo " ++ dq ++ "trustedkey 42" ++ dq ++ " >> /etc/ntp.conf")
       Oracle.start
  /\ sends_exactly (remove_trustedkey 42)
       "sed -i '/trustedkey 42/d' /etc/ntp.conf" Oracle.start
  /\ sends_exactly (remove_trustedkey_password 42)
       "sed -i '/42[[:space:]]/d' /etc/ntp.keys" Oracle.start.
Proof.
  split; [lia|].
  apply (trustedkey_commands (E := Oracle.silent) (trustedkey_id := 42)
           Oracle.start).
  lia.
Defined.

(** X2.  [add_trustedkey_password] with an empty key raises
    [AssertionError] and sends nothing, whatever the id and the type
    are: an id in range does not make up for the missing key. *)
Theorem empty_key_rejected {Node : Type} {E : Enode Node}
  (trustedkey_id : Z) (type : string) (w : world Node) :
  add_trustedkey_password trustedkey_id EmptyString type w
  = (w, Raise AssertionError).
Proof.
  rewrite add_trustedkey_password_outcome.
  now rewrite andb_false_r.
Qed.






(** ** The simulated shell on the commands of the library *)

Lemma all_chars_app (ok : ascii -> bool) (a b : string) :
  Shell.all_chars ok (a ++ b)
  = (Shell.all_chars ok a && Shell.all_chars ok b)%bool.
Proof.
  induction a as [|c a IH]; simpl; [reflexivity|].
  now rewrite IH, andb_assoc.
Qed.

Lemma all_chars_impl (ok ok' : ascii -> bool) (s : string) :
  (forall c, ok c = true -> ok' c = true) ->
  Shell.all_chars ok s = true -> Shell.all_chars ok' s = true.
Proof.
  intros Himp. induction s as [|c s IH]; simpl; [reflexivity|].
  intros Hs. apply andb_true_iff in Hs as [Hc Hs].
  now rewrite (Himp _ Hc), IH.
Qed.

Lemma string_of_uint_digits (d : Decimal.uint) :
  Shell.all_chars is_digit (NilEmpty.string_of_uint d) = true.
Proof.
  induction d; simpl; auto.
Qed.

(** The text of a positive [int] is made of decimal digits. *)
Lemma str_of_int_digits (z : Z) :
  0 < z -> Shell.all_chars is_digit (str_of_int z) = true.
Proof.
  intros Hz. destruct z as [|p|p]; try lia.
  unfold str_of_int. cbn [Z.to_int NilZero.string_of_int].
  unfold NilZero.string_of_uint.
  destruct (Pos.to_uint p) eqn:Hp; try reflexivity;
    rewrite <- Hp; apply string_of_uint_digits.
Qed.

Lemma digit_quotable (c : ascii) : is_digit c = true -> quotable c = true.
Proof.
  destruct c as [[|] [|] [|] [|] [|] [|] [|] [|]];
    vm_compute; congruence.
Qed.

Lemma digit_ordinary (c : ascii) : is_digit c = true -> ordinary c = true.
Proof.
  destruct c as [[|] [|] [|] [|] [|] [|] [|] [|]];
    vm_compute; congruence.
Qed.

Lemma ordinary_not_slash (c : ascii) :
  ordinary c = true -> negb (Ascii.eqb c "/"%char) = true.
Proof.
  destruct c as [[|] [|] [|] [|] [|] [|] [|] [|]];
    vm_compute; congruence.
Qed.

Lemma quotable_not_dq (c : ascii) :
  quotable c = true -> negb (Ascii.eqb c (ascii_of_nat 34)) = true.
Proof.
  unfold quotable. intros Hq. now apply andb_true_iff in Hq as [_ Hq].
Qed.

Lemma quotable_literal (c : ascii) :
  quotable c = true ->
  (negb (Shell.dq_special c) && Shell.in_line c)%bool = true.
Proof.
  destruct c as [[|] [|] [|] [|] [|] [|] [|] [|]];
    vm_compute; congruence.
Qed.

Lemma strip_prefix_app (p s : string) :
  Shell.strip_prefix p (p ++ s) = Some s.
Proof.
  induction p as [|c p IH]; simpl; [reflexivity|].
  now rewrite Ascii.eqb_refl.
Qed.

Lemma read_until_app (stop : ascii) (a b : string) :
  Shell.all_chars (fun c => negb (Ascii.eqb c stop)) a = true ->
  Shell.read_until stop (a ++ String stop b) = Some (a, b).
Proof.
  induction a as [|c a IH]; simpl.
  - intros _. now rewrite Ascii.eqb_refl.
  - intros Ha. apply andb_true_iff in Ha as [Hc Ha].
    apply negb_true_iff in Hc. rewrite Hc, (IH Ha). reflexivity.
Qed.

Lemma parse_re_lits (a b : string) :
  Shell.all_chars ordinary a = true ->
  Shell.parse_re 0 (a ++ b)
  = option_map (app (lits a)) (Shell.parse_re 0 b).
Proof.
  induction a as [|c a IH].
  - intros _. simpl. now destruct (Shell.parse_re 0 b).
  - intros Ha. cbn [Shell.all_chars] in Ha.
    apply andb_true_iff in Ha as [Hc Ha].
    change (String c a ++ b)%string with (String c (a ++ b)).
    cbn [Shell.parse_re].
    assert (Hbr : prefix_of "[[:space:]]" (String c (a ++ b)) = false).
    { cbn [prefix_of]. destruct (Ascii.eqb_spec "["%char c) as [<-|]; [|reflexivity].
      discriminate Hc. }
    rewrite Hbr. unfold ordinary in Hc. apply negb_true_iff in Hc.
    rewrite Hc, (IH Ha).
    now destruct (Shell.parse_re 0 b).
Qed.

Lemma append_assoc3 (a b c : string) :
  ((a ++ b) ++ c)%string = (a ++ b ++ c)%string.
Proof.
  induction a as [|x a IH]; simpl; [reflexivity | now rewrite IH].
Qed.

Lemma path_of_name (p : Shell.path) : Shell.path_of (path_name p) = Some p.
Proof. now destruct p. Qed.

(** The shell reads the [echo] command of the library as an append. *)
Lemma parse_append (text : string) (p : Shell.path) :
  Shell.all_chars quotable text = true ->
  Shell.parse ("echo " ++ dq ++ text ++ dq ++ " >> " ++ path_name p)
  = Some (Shell.Append text p).
Proof.
  intros Htext. unfold Shell.parse, Shell.parse_echo.
  rewrite <- (append_assoc3 "echo " dq), strip_prefix_app.
  change (text ++ dq ++ " >> " ++ path_name p)%string
    with (text ++ String (ascii_of_nat 34) (" >> " ++ path_name p))%string.
  rewrite read_until_app
    by (revert Htext; apply all_chars_impl, quotable_not_dq).
  rewrite strip_prefix_app, path_of_name.
  now rewrite (@all_chars_impl _
                 (fun c => (negb (Shell.dq_special c) && Shell.in_line c)%bool)
                 _ quotable_literal Htext).
Qed.

(** And the [sed] command as the deletion of the matching lines. *)
Lemma parse_delete (pat : string) (re : Shell.regex) (p : Shell.path) :
  Shell.all_chars (fun c => negb (Ascii.eqb c "/"%char)) pat = true ->
  Shell.parse_re 0 pat = Some re ->
  Shell.parse ("sed -i '/" ++ pat ++ "/d' " ++ path_name p)
  = Some (Shell.DeleteMatching re p).
Proof.
  intros Hpat Hre. unfold Shell.parse.
  assert (Hecho : Shell.parse_echo
                    ("sed -i '/" ++ pat ++ "/d' " ++ path_name p) = None)
    by reflexivity.
  rewrite Hecho. unfold Shell.parse_sed.
  rewrite strip_prefix_app.
  change (pat ++ "/d' " ++ path_name p)%string
    with (pat ++ String "/"%char ("d' " ++ path_name p))%string.
  rewrite read_until_app by exact Hpat.
  rewrite strip_prefix_app, path_of_name, Hre. reflexivity.
Qed.

Lemma sh_runs (cmd : string) (k : Shell.cmd) (fs : Shell.files) :
  Shell.parse cmd = Some k ->
  Shell.sh (Call cmd "bash") fs = (Shell.run k fs, EmptyString).
Proof.
  intros Hk. unfold Shell.sh. cbn [shell command]. now rewrite Hk.
Qed.

(** What is in the files once a function has sent one command that the
    shell understands. *)
Lemma files_after_sends (m : M Shell.files unit) (cmd : string)
  (k : Shell.cmd) (fs : Shell.files) :
  sends_exactly (E := Shell.sh) m cmd (Shell.start fs) ->
  Shell.parse cmd = Some k ->
  files_after m fs = Shell.run k fs.
Proof.
  unfold sends_exactly, files_after. intros -> Hk.
  cbn [fst]. unfold after_call, Shell.start, execute. cbn [node].
  now rewrite (sh_runs _ fs Hk).
Qed.

(** The same for two functions in a row. *)
Lemma files_after_two (m1 m2 : M Shell.files unit) (c1 c2 : string)
  (k1 k2 : Shell.cmd) (fs : Shell.files) :
  (forall w, sends_exactly (E := Shell.sh) m1 c1 w) ->
  (forall w, sends_exactly (E := Shell.sh) m2 c2 w) ->
  Shell.parse c1 = Some k1 ->
  Shell.parse c2 = Some k2 ->
  (m1 ;; m2) (Shell.start fs)
  = (World [Call c1 "bash"; Call c2 "bash"] (Shell.run k2 (Shell.run k1 fs)),
     Return tt).
Proof.
  unfold sends_exactly. intros H1 H2 Hk1 Hk2.
  unfold bind. rewrite H1, H2. unfold after_call, Shell.start, execute.
  cbn [node sent].
  rewrite (sh_runs _ fs Hk1). cbn [fst].
  rewrite (sh_runs _ _ Hk2). reflexivity.
Qed.

(** *** The meaning of the two patterns *)

Lemma match_here_lits (a : string) (re : Shell.regex) (s : string) :
  Shell.match_here (lits a ++ re)%list s = true
  <-> exists s' : string, s = (a ++ s')%string /\ Shell.match_here re s' = true.
Proof.
  revert s. induction a as [|c a IH]; intros s.
  - simpl. split; [intros Hm; now exists s | now intros [s' [-> Hm]]].
  - cbn [lits app Shell.match_here]. destruct s as [|x s].
    + split; [discriminate | intros [s' [Hs _]]; discriminate].
    + cbn [Shell.atom_matches]. rewrite andb_true_iff, Ascii.eqb_eq, IH.
      split.
      * intros [-> [s' [-> Hm]]]. now exists s'.
      * intros [s' [Hs Hm]]. injection Hs as -> ->.
        split; [reflexivity | now exists s'].
Qed.

Lemma re_search_spec (re : Shell.regex) (s : string) :
  Shell.re_search re s = true
  <-> exists pre post : string,
      s = (pre ++ post)%string /\ Shell.match_here re post = true.
Proof.
  induction s as [|c s IH].
  - cbn [Shell.re_search]. rewrite orb_false_r. split.
    + intros Hm. now exists EmptyString, EmptyString.
    + intros [[|x pre] [post [Hs Hm]]]; [|discriminate].
      simpl in Hs. now subst post.
  - change (Shell.re_search re (String c s))
      with (Shell.match_here re (String c s) || Shell.re_search re s)%bool.
    rewrite orb_true_iff, IH. split.
    + intros [Hm | [pre [post [-> Hm]]]].
      * now exists EmptyString, (String c s).
      * now exists (String c pre), post.
    + intros [[|x pre] [post [Hs Hm]]].
      * left. simpl in Hs. now subst post.
      * right. simpl in Hs. injection Hs as _ ->. now exists pre, post.
Qed.

Lemma search_lits (d l : string) :
  Shell.re_search (lits d) l = true <-> occurs_in d l.
Proof.
  rewrite re_search_spec. unfold occurs_in. split.
  - intros [pre [post [-> Hm]]].
    rewrite <- (app_nil_r (lits d)) in Hm.
    apply match_here_lits in Hm as [s' [-> _]]. now exists pre, s'.
  - intros [pre [post ->]]. exists pre, (d ++ post)%string.
    split; [reflexivity|].
    rewrite <- (app_nil_r (lits d)). apply match_here_lits. now exists post.
Qed.

Lemma search_lits_space (d l : string) :
  Shell.re_search (lits d ++ [Shell.SpaceClass])%list l = true
  <-> followed_by_space d l.
Proof.
  rewrite re_search_spec. unfold followed_by_space. split.
  - intros [pre [post [-> Hm]]].
    apply match_here_lits in Hm as [s' [-> Hm]].
    destruct s' as [|c s']; [discriminate|].
    cbn [Shell.match_here Shell.atom_matches] in Hm.
    rewrite andb_true_r in Hm. now exists pre, c, s'.
  - intros [pre [c [post [-> Hc]]]].
    exists pre, (d ++ String c post)%string. split; [reflexivity|].
    apply match_here_lits. exists (String c post). split; [reflexivity|].
    cbn [Shell.match_here Shell.atom_matches]. now rewrite Hc.
Qed.

(** *** The regular expressions of the two removals *)

Lemma parse_re_trustedkey (d : string) :
  Shell.all_chars ordinary d = true ->
  Shell.parse_re 0 ("trustedkey " ++ d) = Some (lits ("trustedkey " ++ d)).
Proof.
  intros Hd.
  rewrite <- (append_empty_r ("trustedkey " ++ d)) at 1.
  rewrite parse_re_lits.
  - cbn [Shell.parse_re option_map]. now rewrite app_nil_r.
  - now rewrite all_chars_app, Hd.
Qed.

Lemma parse_re_id_space (d : string) :
  Shell.all_chars ordinary d = true ->
  Shell.parse_re 0 (d ++ "[[:space:]]")
  = Some (lits d ++ [Shell.SpaceClass])%list.
Proof.
  intros Hd. now rewrite parse_re_lits.
Qed.

(** *** Lists of lines *)

Lemma filter_all {A : Type} (f : A -> bool) (l : list A) :
  (forall x, In x l -> f x = true) -> filter f l = l.
Proof.
  induction l as [|x l IH]; intros Hall; simpl; [reflexivity|].
  rewrite (Hall x (or_introl eq_refl)), IH; [reflexivity|].
  intros y Hy. apply Hall. now right.
Qed.

Lemma filter_twice {A : Type} (f : A -> bool) (l : list A) :
  filter f (filter f l) = filter f l.
Proof.
  apply filter_all. intros x Hx. now apply filter_In in Hx.
Qed.

Lemma filter_snoc_out {A : Type} (f : A -> bool) (l : list A) (x : A) :
  f x = false -> filter f (l ++ [x]) = filter f l.
Proof.
  intros Hx. rewrite filter_app. simpl. rewrite Hx. apply app_nil_r.
Qed.

(** *** The commands of the key operations, as the shell reads them *)

Section KeyCommands.

Variable trustedkey_id : Z.
Hypothesis in_range : 0 < trustedkey_id < 65535.

Lemma id_ordinary :
  Shell.all_chars ordinary (str_of_int trustedkey_id) = true.
Proof.
  apply (@all_chars_impl is_digit ordinary _ digit_ordinary).
  apply str_of_int_digits. lia.
Qed.

Lemma id_quotable :
  Shell.all_chars quotable (str_of_int trustedkey_id) = true.
Proof.
  apply (@all_chars_impl is_digit quotable _ digit_quotable).
  apply str_of_int_digits. lia.
Qed.

Lemma id_no_slash :
  Shell.all_chars (fun c => negb (Ascii.eqb c "/"%char))
    (str_of_int trustedkey_id) = true.
Proof.
  apply (@all_chars_impl ordinary _ _ ordinary_not_slash), id_ordinary.
Qed.

Lemma parse_add_trustedkey :
  Shell.parse ("echo " ++ dq ++ "trustedkey " ++ str_of_int trustedkey_id
               ++ dq ++ " >> /etc/ntp.conf")
  = Some (Shell.Append ("trustedkey " ++ str_of_int trustedkey_id)
            Shell.NtpConf).
Proof.
  apply (parse_append ("trustedkey " ++ str_of_int trustedkey_id)
           Shell.NtpConf).
  now rewrite all_chars_app, id_quotable.
Qed.

Lemma parse_remove_trustedkey :
  Shell.parse ("sed -i '/trustedkey " ++ str_of_int trustedkey_id
               ++ "/d' /etc/ntp.conf")
  = Some (Shell.DeleteMatching
            (lits ("trustedkey " ++ str_of_int trustedkey_id))
            Shell.NtpConf).
Proof.
  apply (parse_delete ("trustedkey " ++ str_of_int trustedkey_id)
           Shell.NtpConf).
  - now rewrite all_chars_app, id_no_slash.
  - apply parse_re_trustedkey, id_ordinary.
Qed.

Lemma parse_add_password (key type : string) :
  Shell.all_chars quotable key = true ->
  Shell.all_chars quotable type = true ->
  Shell.parse ("echo " ++ dq ++ str_of_int trustedkey_id ++ " " ++ type
               ++ " " ++ key ++ dq ++ " >> /etc/ntp.keys")
  = Some (Shell.Append
            (str_of_int trustedkey_id ++ " " ++ type ++ " " ++ key)
            Shell.NtpKeys).
Proof.
  intros Hkey Htype.
  rewrite <- (parse_append
                (str_of_int trustedkey_id ++ " " ++ type ++ " " ++ key)
                Shell.NtpKeys).
  - cbn [path_name]. unfold KEYS_FILE.
    rewrite !append_assoc3. reflexivity.
  - rewrite !all_chars_app, id_quotable, Htype, Hkey. reflexivity.
Qed.

Lemma parse_remove_password :
  Shell.parse ("sed -i '/" ++ str_of_int trustedkey_id
               ++ "[[:space:]]/d' /etc/ntp.keys")
  = Some (Shell.DeleteMatching
            (lits (str_of_int trustedkey_id) ++ [Shell.SpaceClass])%list
            Shell.NtpKeys).
Proof.
  rewrite <- (parse_delete (str_of_int trustedkey_id ++ "[[:space:]]")
                (re := (lits (str_of_int trustedkey_id)
                        ++ [Shell.SpaceClass])%list) Shell.NtpKeys).
  - cbn [path_name]. unfold KEYS_FILE.
    rewrite !append_assoc3. reflexivity.
  - now rewrite all_chars_app, id_no_slash.
  - apply parse_re_id_space, id_ordinary.
Qed.

End KeyCommands.

(** *** The key operations on the simulated files *)

Section KeyFiles.

Variable trustedkey_id : Z.
Hypothesis in_range : 0 < trustedkey_id < 65535.

Lemma add_trustedkey_sends {Node : Type} {E : Enode Node} (w : world Node) :
  sends_exactly (add_trustedkey trustedkey_id)
    ("echo " ++ dq ++ "trustedkey " ++ str_of_int trustedkey_id ++ dq
     ++ " >> /etc/ntp.conf") w.
Proof.
  unfold sends_exactly.
  now rewrite add_trustedkey_outcome, (in_range_true in_range).
Qed.

Lemma remove_trustedkey_sends {Node : Type} {E : Enode Node}
  (w : world Node) :
  sends_exactly (remove_trustedkey trustedkey_id)
    ("sed -i '/trustedkey " ++ str_of_int trustedkey_id
     ++ "/d' /etc/ntp.conf") w.
Proof.
  unfold sends_exactly.
  now rewrite remove_trustedkey_outcome, (in_range_true in_range).
Qed.

Lemma remove_password_sends {Node : Type} {E : Enode Node}
  (w : world Node) :
  sends_exactly (remove_trustedkey_password trustedkey_id)
    ("sed -i '/" ++ str_of_int trustedkey_id
     ++ "[[:space:]]/d' /etc/ntp.keys") w.
Proof.
  unfold sends_exactly.
  now rewrite remove_trustedkey_password_outcome, (in_range_true in_range).
Qed.

Lemma files_add_trustedkey (fs : Shell.files) :
  files_after (add_trustedkey (E := Shell.sh) trustedkey_id) fs
  = Shell.Files
      (Shell.ntp_conf fs ++ ["trustedkey " ++ str_of_int trustedkey_id])
      (Shell.ntp_keys fs).
Proof.
  now rewrite (files_after_sends
                 (add_trustedkey_sends (E := Shell.sh) (Shell.start fs))
                 (parse_add_trustedkey in_range)).
Qed.

Lemma files_remove_trustedkey (fs : Shell.files) :
  files_after (remove_trustedkey (E := Shell.sh) trustedkey_id) fs
  = Shell.Files
      (filter
         (fun l => negb (Shell.re_search
                           (lits ("trustedkey " ++ str_of_int trustedkey_id))
                           l))
         (Shell.ntp_conf fs))
      (Shell.ntp_keys fs).
Proof.
  now rewrite (files_after_sends
                 (remove_trustedkey_sends (E := Shell.sh) (Shell.start fs))
                 (parse_remove_trustedkey in_range)).
Qed.

Lemma files_add_password (key type : string) (fs : Shell.files) :
  key <> EmptyString ->
  Shell.all_chars quotable key = true ->
  Shell.all_chars quotable type = true ->
  files_after (add_trustedkey_password (E := Shell.sh) trustedkey_id key type)
    fs
  = Shell.Files (Shell.ntp_conf fs)
      (Shell.ntp_keys fs
       ++ [str_of_int trustedkey_id ++ " " ++ type ++ " " ++ key]).
Proof.
  intros Hne Hkey Htype.
  now rewrite (files_after_sends
                 (add_trustedkey_password_sends (E := Shell.sh)
                    (Shell.start fs) type in_range Hne)
                 (parse_add_password in_range _ _ Hkey Htype)).
Qed.

Lemma files_remove_password (fs : Shell.files) :
  files_after (remove_trustedkey_password (E := Shell.sh) trustedkey_id) fs
  = Shell.Files (Shell.ntp_conf fs)
      (filter
         (fun l => negb (Shell.re_search
                           (lits (str_of_int trustedkey_id)
                            ++ [Shell.SpaceClass])%list l))
         (Shell.ntp_keys fs)).
Proof.
  now rewrite (files_after_sends
                 (remove_password_sends (E := Shell.sh) (Shell.start fs))
                 (parse_remove_password in_range)).
Qed.

End KeyFiles.

Lemma occurs_in_self (d : string) : occurs_in d d.
Proof.
  exists EmptyString, EmptyString. simpl. now rewrite append_empty_r.
Qed.

Lemma parse_re_ordinary (s : string) :
  Shell.all_chars ordinary s = true ->
  Shell.parse_re 0 s = Some (lits s).
Proof.
  intros Hs. rewrite <- (append_empty_r s) at 1.
  rewrite parse_re_lits by exact Hs. cbn [Shell.parse_re option_map].
  now rewrite app_nil_r.
Qed.

(** X7.  On the simulated files, for an id with [0 < id < 65535]:
    [add_trustedkey] appends the line [trustedkey <id>] at the end of the
    configuration file and leaves the key file alone;
    [add_trustedkey_password], given a non-empty key and a key and type
    made of printable ASCII characters other than the double quote and
    those the shell expands inside double quotes (so without a newline),
    appends the line [<id> <type> <key>] at the end of the key file and
    leaves the configuration file alone.  Nothing is checked against the
    lines already there, so a second call appends a second line. *)
Theorem add_key_entries_on_files (trustedkey_id : Z) (key type : string)
  (fs : Shell.files) :
  0 < trustedkey_id < 65535 ->
  key <> EmptyString ->
  Shell.all_chars quotable key = true ->
  Shell.all_chars quotable type = true ->
  files_after (add_trustedkey (E := Shell.sh) trustedkey_id) fs
  = Shell.Files
      (Shell.ntp_conf fs ++ ["trustedkey " ++ str_of_int trustedkey_id])
      (Shell.ntp_keys fs)
  /\ files_after
       (add_trustedkey_password (E := Shell.sh) trustedkey_id key type) fs
     = Shell.Files (Shell.ntp_conf fs)
         (Shell.ntp_keys fs
          ++ [str_of_int trustedkey_id ++ " " ++ type ++ " " ++ key]).
Proof.
  intros Hid Hne Hkey Htype. split.
  - now apply files_add_trustedkey.
  - now apply files_add_password.
Qed.

Lemma add_key_entries_on_files_witness :
  files_after (add_trustedkey (E := Shell.sh) 7)
    (Shell.Files ["server a"] ["7 M old"])
  = Shell.Files ["server a"; "trustedkey 7"] ["7 M old"]
  /\ files_after (add_trustedkey_password (E := Shell.sh) 7 "s3cret" "M")
       (Shell.Files ["server a"] ["7 M old"])
     = Shell.Files ["server a"] ["7 M old"; "7 M s3cret"].
Proof.
  apply (@add_key_entries_on_files 7 "s3cret" "M"
           (Shell.Files ["server a"] ["7 M old"])).
  - lia.
  - discriminate.
  - reflexivity.
  - reflexivity.
Defined.

(** X8.  On the simulated files, for an id with [0 < id < 65535],
    [remove_trustedkey] keeps, in their order, exactly the lines of the
    configuration file in which the text [trustedkey <id>] does not
    occur, and leaves the key file alone.  The match is by substring: a
    line [trustedkey 123] goes when the id is 12. *)
Theorem remove_trustedkey_on_files (trustedkey_id : Z) (fs : Shell.files) :
  0 < trustedkey_id < 65535 ->
  exists keep : string -> bool,
    files_after (remove_trustedkey (E := Shell.sh) trustedkey_id) fs
    = Shell.Files (filter keep (Shell.ntp_conf fs)) (Shell.ntp_keys fs)
    /\ forall l : string,
        keep l = true
        <-> ~ occurs_in ("trustedkey " ++ str_of_int trustedkey_id) l.
Proof.
  intros Hid. eexists. split.
  - apply (files_remove_trustedkey Hid).
  - intros l. cbv beta. rewrite negb_true_iff, <- search_lits.
    destruct (Shell.re_search _ l); split; congruence.
Qed.

Lemma remove_trustedkey_on_files_witness :
  exists keep : string -> bool,
    files_after (remove_trustedkey (E := Shell.sh) 12)
      (Shell.Files ["trustedkey 1"; "trustedkey 123"; "trustedkey 12"] [])
    = Shell.Files
        (filter keep ["trustedkey 1"; "trustedkey 123"; "trustedkey 12"]) []
    /\ forall l : string,
        keep l = true <-> ~ occurs_in ("trustedkey " ++ str_of_int 12) l.
Proof.
  apply (@remove_trustedkey_on_files 12
           (Shell.Files ["trustedkey 1"; "trustedkey 123"; "trustedkey 12"]
              [])).
  lia.
Defined.

(** X9.  On the simulated files, for an id with [0 < id < 65535],
    [remove_trustedkey_password] keeps, in their order, exactly the lines
    of the key file in which the digits of the id are nowhere followed by
    a white-space character, and leaves the configuration file alone.
    The digits may stand anywhere in the line: nothing ties them to its
    start. *)
Theorem remove_password_on_files (trustedkey_id : Z) (fs : Shell.files) :
  0 < trustedkey_id < 65535 ->
  exists keep : string -> bool,
    files_after (remove_trustedkey_password (E := Shell.sh) trustedkey_id) fs
    = Shell.Files (Shell.ntp_conf fs) (filter keep (Shell.ntp_keys fs))
    /\ forall l : string,
        keep l = true
        <-> ~ followed_by_space (str_of_int trustedkey_id) l.
Proof.
  intros Hid. eexists. split.
  - apply (files_remove_password Hid).
  - intros l. cbv beta. rewrite negb_true_iff, <- search_lits_space.
    destruct (Shell.re_search _ l); split; congruence.
Qed.

Lemma remove_password_on_files_witness :
  exists keep : string -> bool,
    files_after (remove_trustedkey_password (E := Shell.sh) 5)
      (Shell.Files [] ["5 M a"; "51 M b"; "15 M c"])
    = Shell.Files [] (filter keep ["5 M a"; "51 M b"; "15 M c"])
    /\ forall l : string,
        keep l = true <-> ~ followed_by_space (str_of_int 5) l.
Proof.
  apply (@remove_password_on_files 5
           (Shell.Files [] ["5 M a"; "51 M b"; "15 M c"])).
  lia.
Defined.

(** X10.  On the simulated files, for an id with [0 < id < 65535],
    [add_trustedkey] followed by [remove_trustedkey] with the same id
    returns normally and leaves the files as [remove_trustedkey] alone
    would: the line just added is always removed again.  When no line of
    the configuration file held the text [trustedkey <id>] before, the
    two files end exactly as they started. *)
Theorem add_then_remove_trustedkey (trustedkey_id : Z) (fs : Shell.files) :
  0 < trustedkey_id < 65535 ->
  snd ((add_trustedkey (E := Shell.sh) trustedkey_id ;;
        remove_trustedkey (E := Shell.sh) trustedkey_id) (Shell.start fs))
  = Return tt
  /\ files_after (add_trustedkey (E := Shell.sh) trustedkey_id ;;
                  remove_trustedkey (E := Shell.sh) trustedkey_id) fs
     = files_after (remove_trustedkey (E := Shell.sh) trustedkey_id) fs
  /\ ((forall l : string,
          In l (Shell.ntp_conf fs) ->
          ~ occurs_in ("trustedkey " ++ str_of_int trustedkey_id) l) ->
      files_after (add_trustedkey (E := Shell.sh) trustedkey_id ;;
                   remove_trustedkey (E := Shell.sh) trustedkey_id) fs
      = fs).
Proof.
  intros Hid.
  pose proof (files_after_two fs
                (fun w => add_trustedkey_sends (E := Shell.sh) Hid w)
                (fun w => remove_trustedkey_sends (E := Shell.sh) Hid w)
                (parse_add_trustedkey Hid) (parse_remove_trustedkey Hid))
    as Htwo.
  assert (Hfiles :
    files_after (add_trustedkey (E := Shell.sh) trustedkey_id ;;
                 remove_trustedkey (E := Shell.sh) trustedkey_id) fs
    = files_after (remove_trustedkey (E := Shell.sh) trustedkey_id) fs).
  { unfold files_after at 1. rewrite Htwo. cbn [fst node].
    rewrite (files_remove_trustedkey Hid).
    cbn [Shell.run Shell.read Shell.write Shell.ntp_conf Shell.ntp_keys].
    rewrite filter_snoc_out; [reflexivity|].
    apply negb_false_iff, search_lits, occurs_in_self. }
  split; [now rewrite Htwo|]. split; [exact Hfiles|].
  intros Hfresh. rewrite Hfiles, (files_remove_trustedkey Hid).
  rewrite filter_all; [now destruct fs|].
  intros l Hl. apply negb_true_iff.
  destruct (Shell.re_search _ l) eqn:Hre; [|reflexivity].
  apply search_lits in Hre. now apply Hfresh in Hre.
Qed.

Lemma add_then_remove_trustedkey_witness :
  0 < 7 < 65535
  /\ files_after (add_trustedkey (E := Shell.sh) 7 ;;
                  remove_trustedkey (E := Shell.sh) 7)
       (Shell.Files ["server a"; "trustedkey 3"] ["7 M x"])
     = files_after (remove_trustedkey (E := Shell.sh) 7)
         (Shell.Files ["server a"; "trustedkey 3"] ["7 M x"]).
Proof.
  split; [lia|].
  refine (proj1 (proj2 (@add_then_remove_trustedkey 7
                          (Shell.Files ["server a"; "trustedkey 3"] ["7 M x"])
                          _))).
  lia.
Defined.

(** X11.  On the simulated files, for an id with [0 < id < 65535], a
    non-empty key, and a key and type made of printable ASCII characters
    other than the double quote and those the shell expands inside
    double quotes (so without a newline), [add_trustedkey_password]
    followed by
    [remove_trustedkey_password] with the same id returns normally and
    leaves the files as the removal alone would: the line just added is
    always removed again.  When in no line of the key file the digits of
    the id were followed by white space before, the two files end exactly
    as they started. *)
Theorem add_then_remove_password (trustedkey_id : Z) (key type : string)
  (fs : Shell.files) :
  0 < trustedkey_id < 65535 ->
  key <> EmptyString ->
  Shell.all_chars quotable key = true ->
  Shell.all_chars quotable type = true ->
  snd ((add_trustedkey_password (E := Shell.sh) trustedkey_id key type ;;
        remove_trustedkey_password (E := Shell.sh) trustedkey_id)
         (Shell.start fs))
  = Return tt
  /\ files_after
       (add_trustedkey_password (E := Shell.sh) trustedkey_id key type ;;
        remove_trustedkey_password (E := Shell.sh) trustedkey_id) fs
     = files_after
         (remove_trustedkey_password (E := Shell.sh) trustedkey_id) fs
  /\ ((forall l : string,
          In l (Shell.ntp_keys fs) ->
          ~ followed_by_space (str_of_int trustedkey_id) l) ->
      files_after
        (add_trustedkey_password (E := Shell.sh) trustedkey_id key type ;;
         remove_trustedkey_password (E := Shell.sh) trustedkey_id) fs
      = fs).
Proof.
  intros Hid Hne Hkey Htype.
  pose proof (files_after_two fs
                (fun w => add_trustedkey_password_sends (E := Shell.sh)
                            w type Hid Hne)
                (fun w => remove_password_sends (E := Shell.sh) Hid w)
                (parse_add_password Hid _ _ Hkey Htype)
                (parse_remove_password Hid))
    as Htwo.
  assert (Hfiles :
    files_after
      (add_trustedkey_password (E := Shell.sh) trustedkey_id key type ;;
       remove_trustedkey_password (E := Shell.sh) trustedkey_id) fs
    = files_after
        (remove_trustedkey_password (E := Shell.sh) trustedkey_id) fs).
  { unfold files_after at 1. rewrite Htwo. cbn [fst node].
    rewrite (files_remove_password Hid).
    cbn [Shell.run Shell.read Shell.write Shell.ntp_conf Shell.ntp_keys].
    rewrite filter_snoc_out; [reflexivity|].
    apply negb_false_iff, search_lits_space.
    exists EmptyString, " "%char, (type ++ " " ++ key)%string.
    split; reflexivity. }
  split; [now rewrite Htwo|]. split; [exact Hfiles|].
  intros Hfresh. rewrite Hfiles, (files_remove_password Hid).
  rewrite filter_all; [now destruct fs|].
  intros l Hl. apply negb_true_iff.
  destruct (Shell.re_search _ l) eqn:Hre; [|reflexivity].
  apply search_lits_space in Hre. now apply Hfresh in Hre.
Qed.

Lemma add_then_remove_password_witness :
  files_after (add_trustedkey_password (E := Shell.sh) 5 "secret" "M" ;;
               remove_trustedkey_password (E := Shell.sh) 5)
    (Shell.Files ["trustedkey 5"] ["51 M other"])
  = files_after (remove_trustedkey_password (E := Shell.sh) 5)
      (Shell.Files ["trustedkey 5"] ["51 M other"]).
Proof.
  refine (proj1 (proj2 (@add_then_remove_password 5 "secret" "M"
                          (Shell.Files ["trustedkey 5"] ["51 M other"])
                          _ _ _ _))).
  - lia.
  - discriminate.
  - reflexivity.
  - reflexivity.
Defined.

(** X12.  On the simulated files, for an id with [0 < id < 65535], a
    removal made twice leaves the files as the removal made once: this
    holds of [remove_trustedkey] and of [remove_trustedkey_password]. *)
Theorem remove_twice (trustedkey_id : Z) (fs : Shell.files) :
  0 < trustedkey_id < 65535 ->
  files_after (remove_trustedkey (E := Shell.sh) trustedkey_id ;;
               remove_trustedkey (E := Shell.sh) trustedkey_id) fs
  = files_after (remove_trustedkey (E := Shell.sh) trustedkey_id) fs
  /\ files_after
       (remove_trustedkey_password (E := Shell.sh) trustedkey_id ;;
        remove_trustedkey_password (E := Shell.sh) trustedkey_id) fs
     = files_after
         (remove_trustedkey_password (E := Shell.sh) trustedkey_id) fs.
Proof.
  intros Hid. split.
  - unfold files_after at 1.
    rewrite (files_after_two fs
               (fun w => remove_trustedkey_sends (E := Shell.sh) Hid w)
               (fun w => remove_trustedkey_sends (E := Shell.sh) Hid w)
               (parse_remove_trustedkey Hid) (parse_remove_trustedkey Hid)).
    cbn [fst node]. rewrite (files_remove_trustedkey Hid).
    cbn [Shell.run Shell.read Shell.write Shell.ntp_conf Shell.ntp_keys].
    now rewrite filter_twice.
  - unfold files_after at 1.
    rewrite (files_after_two fs
               (fun w => remove_password_sends (E := Shell.sh) Hid w)
               (fun w => remove_password_sends (E := Shell.sh) Hid w)
               (parse_remove_password Hid) (parse_remove_password Hid)).
    cbn [fst node]. rewrite (files_remove_password Hid).
    cbn [Shell.run Shell.read Shell.write Shell.ntp_conf Shell.ntp_keys].
    now rewrite filter_twice.
Qed.

Lemma remove_twice_witness :
  0 < 12 < 65535
  /\ files_after (remove_trustedkey (E := Shell.sh) 12 ;;
                  remove_trustedkey (E := Shell.sh) 12)
       (Shell.Files ["trustedkey 12"; "trustedkey 2"] [])
     = files_after (remove_trustedkey (E := Shell.sh) 12)
         (Shell.Files ["trustedkey 12"; "trustedkey 2"] []).
Proof.
  split; [lia|].
  refine (proj1 (@remove_twice 12
                   (Shell.Files ["trustedkey 12"; "trustedkey 2"] []) _)).
  lia.
Defined.

(** X13.  On the simulated files, for a non-empty address made of
    printable ASCII characters other than the double quote and those the
    shell expands inside double quotes (so without a newline),
    [add_ntp_server] appends the line [server <address>] at the end of the configuration
    file, whatever lines are there already, and leaves the key file
    alone. *)
Theorem add_server_on_files (server : string) (fs : Shell.files) :
  server <> EmptyString ->
  Shell.all_chars quotable server = true ->
  files_after (add_ntp_server (E := Shell.sh) server) fs
  = Shell.Files (Shell.ntp_conf fs ++ ["server " ++ server])
      (Shell.ntp_keys fs).
Proof.
  intros Hne Hq.
  rewrite (files_after_sends
             (add_ntp_server_sends (E := Shell.sh) (Shell.start fs) Hne)
             (parse_append ("server " ++ server) Shell.NtpConf
                ltac:(now rewrite all_chars_app, Hq))).
  reflexivity.
Qed.

Lemma add_server_on_files_witness :
  files_after (add_ntp_server (E := Shell.sh) "10.0.0.1")
    (Shell.Files ["server 10.0.0.1"] [])
  = Shell.Files ["server 10.0.0.1"; "server 10.0.0.1"] [].
Proof.
  apply (@add_server_on_files "10.0.0.1" (Shell.Files ["server 10.0.0.1"] [])).
  - discriminate.
  - reflexivity.
Defined.

(** X14.  On the simulated files, for a non-empty address made of
    characters that are ordinary in a regular expression (so without a
    dot), [remove_ntp_server] keeps, in their order, exactly the lines of
    the configuration file in which the address does not occur, and
    leaves the key file alone.  The match is by substring and looks at
    whole lines, whatever their first word is. *)
Theorem remove_server_on_files (server : string) (fs : Shell.files) :
  server <> EmptyString ->
  Shell.all_chars ordinary server = true ->
  exists keep : string -> bool,
    files_after (remove_ntp_server (E := Shell.sh) server) fs
    = Shell.Files (filter keep (Shell.ntp_conf fs)) (Shell.ntp_keys fs)
    /\ forall l : string, keep l = true <-> ~ occurs_in server l.
Proof.
  intros Hne Hord.
  exists (fun l => negb (Shell.re_search (lits server) l)). split.
  - rewrite (files_after_sends
               (remove_ntp_server_sends (E := Shell.sh) (Shell.start fs) Hne)
               (@parse_delete server (lits server) Shell.NtpConf
                  (@all_chars_impl ordinary _ _ ordinary_not_slash Hord)
                  (@parse_re_ordinary server Hord))).
    reflexivity.
  - intros l. rewrite negb_true_iff, <- search_lits.
    destruct (Shell.re_search _ l); split; congruence.
Qed.

Lemma remove_server_on_files_witness :
  exists keep : string -> bool,
    files_after (remove_ntp_server (E := Shell.sh) "ntp1")
      (Shell.Files ["server ntp1"; "server ntp10"; "trustedkey 1"] [])
    = Shell.Files
        (filter keep ["server ntp1"; "server ntp10"; "trustedkey 1"]) []
    /\ forall l : string, keep l = true <-> ~ occurs_in "ntp1" l.
Proof.
  apply (@remove_server_on_files "ntp1"
           (Shell.Files ["server ntp1"; "server ntp10"; "trustedkey 1"] [])).
  - discriminate.
  - reflexivity.
Defined.

(** X15.  On the simulated files, the two calls that install a key can
    be made in either order: for ids with [0 < id < 65535], a non-empty
    key, and a key and type made of printable ASCII characters other
    than the double quote and those the shell expands inside double
    quotes (so without a newline), [add_trustedkey] then
    [add_trustedkey_password]
    leaves the same two files as [add_trustedkey_password] then
    [add_trustedkey], each file with its one new line at the end. *)
Theorem install_key_either_order (conf_id keys_id : Z) (key type : string)
  (fs : Shell.files) :
  0 < conf_id < 65535 ->
  0 < keys_id < 65535 ->
  key <> EmptyString ->
  Shell.all_chars quotable key = true ->
  Shell.all_chars quotable type = true ->
  files_after (add_trustedkey (E := Shell.sh) conf_id ;;
               add_trustedkey_password (E := Shell.sh) keys_id key type) fs
  = Shell.Files
      (Shell.ntp_conf fs ++ ["trustedkey " ++ str_of_int conf_id])
      (Shell.ntp_keys fs ++ [str_of_int keys_id ++ " " ++ type ++ " " ++ key])
  /\ files_after (add_trustedkey_password (E := Shell.sh) keys_id key type ;;
                  add_trustedkey (E := Shell.sh) conf_id) fs
     = files_after (add_trustedkey (E := Shell.sh) conf_id ;;
                    add_trustedkey_password (E := Shell.sh) keys_id key type)
         fs.
Proof.
  intros Hc Hk Hne Hkey Htype.
  unfold files_after.
  rewrite (files_after_two fs
             (fun w => add_trustedkey_sends (E := Shell.sh) Hc w)
             (fun w => add_trustedkey_password_sends (E := Shell.sh)
                         w type Hk Hne)
             (parse_add_trustedkey Hc)
             (parse_add_password Hk _ _ Hkey Htype)).
  rewrite (files_after_two fs
             (fun w => add_trustedkey_password_sends (E := Shell.sh)
                         w type Hk Hne)
             (fun w => add_trustedkey_sends (E := Shell.sh) Hc w)
             (parse_add_password Hk _ _ Hkey Htype)
             (parse_add_trustedkey Hc)).
  split; reflexivity.
Qed.

Lemma install_key_either_order_witness :
  files_after (add_trustedkey (E := Shell.sh) 7 ;;
               add_trustedkey_password (E := Shell.sh) 7 "s3cret" "M")
    (Shell.Files ["server a"] [])
  = Shell.Files ["server a"; "trustedkey 7"] ["7 M s3cret"].
Proof.
  refine (proj1 (@install_key_either_order 7 7 "s3cret" "M"
                   (Shell.Files ["server a"] []) _ _ _ _ _)).
  - lia.
  - lia.
  - discriminate.
  - reflexivity.
  - reflexivity.
Defined.
